(** * Secure chat relay (Secure_chat-main/app.py): a shallow embedding

    The development follows the layout of [app.py]:
    - Python values the handlers receive ([str], [bytes], JSON values, dicts
      in insertion order);
    - the two library functions [compute_fingerprint] is made of
      ([base64.b64decode] and [hashlib.sha256]), written out so that the
      fingerprint can be evaluated;
    - the module state ([participants], [sessions], [logs]) and a small
      monad for handlers that read the request, mutate the state, emit
      Socket.IO events and may raise;
    - the handlers themselves, then the theorems.

    Modelling choices:
    - an event payload is a JSON value; a handler that applies a string
      or dict method to a value of another type raises, as in Python;
    - each event is handled to completion before the next one (the
      handlers take no lock, interleavings of two handlers are not
      modelled);
    - [app.logger] calls are left out: they touch neither the state nor
      the clients;
    - [str.lower], [json], [AESGCM] and the log key are parameters
      ([Platform]); the clock and [os.urandom] are read from the request
      context. *)

From Stdlib Require Import NArith ZArith List Bool Ascii String Strings.Byte Lia.
From Stdlib Require Import Sorting.Sorted Sorting.Permutation.
From stdpp Require Import base option list gmap.
Import ListNotations.

Set Warnings "-register-all".
Local Open Scope N_scope.

(* ===================================================================== *)
(** ** Python text and bytes *)
(* ===================================================================== *)

(** A Python [str] is a sequence of Unicode code points; a [bytes] object a
    sequence of octets. *)
Definition str := list N.
Definition bytes := list byte.

#[global] Instance byte_eq_decision : EqDecision byte := Byte.byte_eq_dec.

(** ASCII literals of the source, as [str]. *)
Definition py (s : string) : str := map N_of_ascii (list_ascii_of_string s).
Arguments py : simpl never.

(** The octet with value [n mod 256] (C's conversion to [unsigned char]). *)
Definition byte_of_N (n : N) : byte :=
  match Byte.of_N (n mod 256) with Some b => b | None => x00 end.

(** [s == t] on [str]. *)
Definition str_eqb (s t : str) : bool := bool_decide (s = t).

(** [s < t] on [str]: lexicographic on code points. *)
Fixpoint str_ltb (s t : str) : bool :=
  match s, t with
  | _, [] => false
  | [], _ :: _ => true
  | a :: s', b :: t' => (a <? b) || ((a =? b) && str_ltb s' t')
  end.

(** [sep.join(parts)]. *)
Fixpoint str_join (sep : str) (parts : list str) : str :=
  match parts with
  | [] => []
  | [p] => p
  | p :: rest => p ++ sep ++ str_join sep rest
  end.

(** The characters [str.strip()] removes: those Python's [str.isspace]
    accepts. *)
Definition py_isspace (c : N) : bool :=
  ((0x09 <=? c) && (c <=? 0x0D)) || ((0x1C <=? c) && (c <=? 0x20))
  || (c =? 0x85) || (c =? 0xA0) || (c =? 0x1680)
  || ((0x2000 <=? c) && (c <=? 0x200A))
  || (c =? 0x2028) || (c =? 0x2029) || (c =? 0x202F) || (c =? 0x205F)
  || (c =? 0x3000).

Fixpoint lstrip (s : str) : str :=
  match s with
  | c :: s' => if py_isspace c then lstrip s' else s
  | [] => []
  end.

(** [s.strip()]. *)
Definition strip (s : str) : str := rev (lstrip (rev (lstrip s))).

(* ===================================================================== *)
(** ** Exceptions *)
(* ===================================================================== *)

Inductive exn :=
| TypeError | AttributeError | ValueError | BinasciiError | InvalidTag
| JSONDecodeError.

Inductive outcome (A : Type) :=
| Ret (a : A)
| Raise (e : exn).
Arguments Ret {A} a.
Arguments Raise {A} e.

(* ===================================================================== *)
(** ** base64 (the [base64] and [binascii] modules) *)
(* ===================================================================== *)

Module Base64.

Definition BASE64_PAD : N := 61. (* '=' *)

(** [table_a2b_base64]: the 6-bit value of an alphabet character, 64 and
    more for every other character. *)
Definition table_a2b_base64 (c : N) : N :=
  if (65 <=? c) && (c <=? 90) then c - 65            (* A-Z *)
  else if (97 <=? c) && (c <=? 122) then c - 97 + 26 (* a-z *)
  else if (48 <=? c) && (c <=? 57) then c - 48 + 52  (* 0-9 *)
  else if c =? 43 then 62                            (* + *)
  else if c =? 47 then 63                            (* / *)
  else 64.

(** The loop of [binascii.a2b_base64] with [strict_mode] off.  [out] is
    the output so far, last octet first. *)
Fixpoint a2b_loop (data : list N) (quad_pos leftchar pads : N)
    (out : bytes) : outcome bytes :=
  match data with
  | [] => if quad_pos =? 0 then Ret (rev out) else Raise BinasciiError
  | c :: rest =>
    if c =? BASE64_PAD then
      if 2 <=? quad_pos then
        if 4 <=? quad_pos + (pads + 1) then Ret (rev out)
        else a2b_loop rest quad_pos leftchar (pads + 1) out
      else a2b_loop rest quad_pos leftchar pads out
    else
      let this_ch := table_a2b_base64 c in
      if 64 <=? this_ch then a2b_loop rest quad_pos leftchar pads out
      else
        if quad_pos =? 0 then a2b_loop rest 1 this_ch 0 out
        else if quad_pos =? 1 then
          a2b_loop rest 2 (N.land this_ch 0x0f) 0
            (byte_of_N (N.lor (N.shiftl leftchar 2) (N.shiftr this_ch 4)) :: out)
        else if quad_pos =? 2 then
          a2b_loop rest 3 (N.land this_ch 0x03) 0
            (byte_of_N (N.lor (N.shiftl leftchar 4) (N.shiftr this_ch 2)) :: out)
        else
          a2b_loop rest 0 0 0
            (byte_of_N (N.lor (N.shiftl leftchar 6) this_ch) :: out)
  end.

Definition a2b_base64 (data : list N) : outcome bytes :=
  a2b_loop data 0 0 0 [].

(** [base64.b64decode(s)] for a [str] argument, [validate] left at its
    default [False]: the text is first encoded as ASCII ([ValueError] when
    it is not), then handed to [binascii.a2b_base64]. *)
Definition b64decode (s : str) : outcome bytes :=
  if forallb (fun c => c <? 128) s then a2b_base64 s else Raise ValueError.

Definition table_b2a_base64 (v : N) : N :=
  if v <? 26 then v + 65
  else if v <? 52 then v - 26 + 97
  else if v <? 62 then v - 52 + 48
  else if v =? 62 then 43 else 47.

(** [base64.b64encode(b).decode()]. *)
Fixpoint b64encode (b : bytes) : str :=
  match b with
  | [] => []
  | [x] =>
    let x := Byte.to_N x in
    [table_b2a_base64 (N.shiftr x 2);
     table_b2a_base64 (N.shiftl (N.land x 3) 4);
     BASE64_PAD; BASE64_PAD]
  | [x; y] =>
    let x := Byte.to_N x in let y := Byte.to_N y in
    [table_b2a_base64 (N.shiftr x 2);
     table_b2a_base64 (N.lor (N.shiftl (N.land x 3) 4) (N.shiftr y 4));
     table_b2a_base64 (N.shiftl (N.land y 15) 2);
     BASE64_PAD]
  | x :: y :: z :: rest =>
    let x := Byte.to_N x in let y := Byte.to_N y in let z := Byte.to_N z in
    table_b2a_base64 (N.shiftr x 2)
    :: table_b2a_base64 (N.lor (N.shiftl (N.land x 3) 4) (N.shiftr y 4))
    :: table_b2a_base64 (N.lor (N.shiftl (N.land y 15) 2) (N.shiftr z 6))
    :: table_b2a_base64 (N.land z 63)
    :: b64encode rest
  end.

(** The spec's "valid base64", after RFC 4648 section 4: groups of four
    alphabet characters, the last group possibly ending in one or two
    pad characters. *)
Definition is_alphabet (c : N) : bool := table_a2b_base64 c <? 64.

Fixpoint valid_base64 (s : str) : bool :=
  match s with
  | [] => true
  | [a; b; c; d] =>
    is_alphabet a && is_alphabet b
    && ((is_alphabet c && (is_alphabet d || (d =? BASE64_PAD)))
        || ((c =? BASE64_PAD) && (d =? BASE64_PAD)))
  | a :: b :: c :: d :: rest =>
    is_alphabet a && is_alphabet b && is_alphabet c && is_alphabet d
    && valid_base64 rest
  | _ => false
  end.

(** The four six-bit values of a group of three octets, and those of a
    last group of one or two. *)
Definition s1 (x : N) : N := N.shiftr x 2.
Definition s2 (x y : N) : N := N.lor (N.shiftl (N.land x 3) 4) (N.shiftr y 4).
Definition s3 (y z : N) : N := N.lor (N.shiftl (N.land y 15) 2) (N.shiftr z 6).
Definition s4 (z : N) : N := N.land z 63.
Definition t2 (x : N) : N := N.shiftl (N.land x 3) 4.
Definition t3 (y : N) : N := N.shiftl (N.land y 15) 2.

(** What decoding needs of the six-bit values made from the octets [x]
    and [y] (resp. [y] and [z]): they are below 64 and recombine to the
    octets. *)
Definition group_xy_ok (x y : N) : bool :=
  (s1 x <? 64) && (s2 x y <? 64) && (t2 x <? 64)
  && (N.lor (N.shiftl (s1 x) 2) (N.shiftr (s2 x y) 4) mod 256 =? x)
  && (N.lor (N.shiftl (s1 x) 2) (N.shiftr (t2 x) 4) mod 256 =? x)
  && (N.lor (N.shiftl (N.land (s2 x y) 15) 4) (N.shiftr (t3 y) 2) mod 256 =? y)
  && (t3 y <? 64).

Definition group_yz_ok (y z : N) : bool :=
  (s3 y z <? 64) && (s4 z <? 64)
  && (forallb (fun x =>
        N.lor (N.shiftl (N.land (s2 x y) 15) 4) (N.shiftr (s3 y z) 2) mod 256
        =? y) [0; 1; 2; 3])
  && (N.lor (N.shiftl (N.land (s3 y z) 3) 6) (s4 z) mod 256 =? z).

End Base64.


(* ===================================================================== *)
(** ** SHA-256 ([hashlib.sha256], FIPS 180-4) *)
(* ===================================================================== *)

Module SHA256.

(** 32-bit words are [N] below [2^32]; every operation that can overflow
    is reduced explicitly. *)
Definition wrap32 (x : N) : N := x mod 2 ^ 32.
Definition add32 (x y : N) : N := wrap32 (x + y).
Definition rotr (n x : N) : N :=
  N.lor (N.shiftr x n) (wrap32 (N.shiftl x (32 - n))).
Definition not32 (x : N) : N := N.lxor (wrap32 x) 0xFFFFFFFF.

Definition Ch (x y z : N) : N := N.lxor (N.land x y) (N.land (not32 x) z).
Definition Maj (x y z : N) : N :=
  N.lxor (N.lxor (N.land x y) (N.land x z)) (N.land y z).
Definition bsig0 (x : N) : N := N.lxor (N.lxor (rotr 2 x) (rotr 13 x)) (rotr 22 x).
Definition bsig1 (x : N) : N := N.lxor (N.lxor (rotr 6 x) (rotr 11 x)) (rotr 25 x).
Definition ssig0 (x : N) : N := N.lxor (N.lxor (rotr 7 x) (rotr 18 x)) (N.shiftr x 3).
Definition ssig1 (x : N) : N := N.lxor (N.lxor (rotr 17 x) (rotr 19 x)) (N.shiftr x 10).

(** The round constants are the first 32 bits of the fractional parts of
    the cube roots of the first 64 primes, the initial chaining value
    those of the square roots of the first 8 (FIPS 180-4, 4.2.2 and
    5.3.3); both are computed here rather than tabulated. *)
Definition is_prime (n : N) : bool :=
  (1 <? n)
  && forallb (fun d => negb (n mod d =? 0))
       (map N.of_nat (seq 2 (N.to_nat (N.sqrt n) - 1))).

(** The largest [k] below [2 ^ bits] with [k ^ 3 <= n]. *)
Fixpoint cube_root (bits : nat) (n k : N) : N :=
  match bits with
  | O => k
  | S b =>
    let k' := k + 2 ^ N.of_nat b in
    cube_root b n (if k' * k' * k' <=? n then k' else k)
  end.

Definition first_primes (count : nat) : list N :=
  firstn count (filter is_prime (map N.of_nat (seq 2 320))).

Definition K256 : list N :=
  Eval vm_compute in
    map (fun p => wrap32 (cube_root 36 (p * 2 ^ 96) 0)) (first_primes 64).

Definition H256 : list N :=
  Eval vm_compute in
    map (fun p => wrap32 (N.sqrt (p * 2 ^ 64))) (first_primes 8).

(** The eight working variables, also the chaining value. *)
Record regs := Regs { ra : N; rb : N; rc : N; rd : N;
                      re : N; rf : N; rg : N; rh : N }.

Definition init_regs : regs :=
  let h i := nth i H256 0 in
  Regs (h 0%nat) (h 1%nat) (h 2%nat) (h 3%nat)
       (h 4%nat) (h 5%nat) (h 6%nat) (h 7%nat).

(** Message padding: a one bit, zeros up to 56 mod 64, the bit length on
    eight octets, most significant first. *)
Definition be_bytes (width : nat) (x : N) : bytes :=
  map (fun i => byte_of_N (N.shiftr x (8 * N.of_nat i))) (rev (seq 0 width)).

Definition pad (msg : bytes) : bytes :=
  let len := length msg in
  let zeros := ((64 - (len + 9) mod 64) mod 64)%nat in
  msg ++ [x80] ++ repeat x00 zeros ++ be_bytes 8 (8 * N.of_nat len).

Fixpoint be_word (bs : bytes) (acc : N) : N :=
  match bs with
  | [] => acc
  | b :: bs' => be_word bs' (N.lor (N.shiftl acc 8) (Byte.to_N b))
  end.

(** The sixteen words of a block, then the forty eight derived ones.  The
    schedule is kept most recent word first. *)
Fixpoint words_of (n : nat) (bs : bytes) : list N :=
  match n with
  | O => []
  | S n' => be_word (firstn 4 bs) 0 :: words_of n' (skipn 4 bs)
  end.

Fixpoint extend (n : nat) (w : list N) : list N :=
  match n with
  | O => w
  | S n' =>
    let x := add32 (add32 (ssig1 (nth 1 w 0)) (nth 6 w 0))
                   (add32 (ssig0 (nth 14 w 0)) (nth 15 w 0)) in
    extend n' (x :: w)
  end.

Definition schedule (block : bytes) : list N :=
  rev (extend 48 (rev (words_of 16 block))).

Definition round (r : regs) (kw : N * N) : regs :=
  let t1 := add32 (add32 (add32 (rh r) (bsig1 (re r)))
                         (add32 (Ch (re r) (rf r) (rg r)) (fst kw))) (snd kw) in
  let t2 := add32 (bsig0 (ra r)) (Maj (ra r) (rb r) (rc r)) in
  Regs (add32 t1 t2) (ra r) (rb r) (rc r) (add32 (rd r) t1) (re r) (rf r) (rg r).

Definition compress (h : regs) (block : bytes) : regs :=
  let r := fold_left round (combine K256 (schedule block)) h in
  Regs (add32 (ra h) (ra r)) (add32 (rb h) (rb r))
       (add32 (rc h) (rc r)) (add32 (rd h) (rd r))
       (add32 (re h) (re r)) (add32 (rf h) (rf r))
       (add32 (rg h) (rg r)) (add32 (rh h) (rh r)).

Fixpoint blocks (n : nat) (bs : bytes) (h : regs) : regs :=
  match n with
  | O => h
  | S n' => blocks n' (skipn 64 bs) (compress h (firstn 64 bs))
  end.

(** [hashlib.sha256(msg).digest()]. *)
Definition digest (msg : bytes) : bytes :=
  let p := pad msg in
  let h := blocks (length p / 64) p init_regs in
  concat (map (be_bytes 4)
    [ra h; rb h; rc h; rd h; re h; rf h; rg h; rh h]).

Definition hex_digit (n : N) : N := if n <? 10 then 48 + n else 87 + n.

(** The two lowercase digits of one octet. *)
Definition hex_pair (b : byte) : str :=
  [hex_digit (N.shiftr (Byte.to_N b) 4); hex_digit (N.land (Byte.to_N b) 15)].

(** [bytes.hex()]. *)
Definition hex (bs : bytes) : str := flat_map hex_pair bs.

(** [hashlib.sha256(msg).hexdigest()]. *)
Definition hexdigest (msg : bytes) : str := hex (digest msg).

End SHA256.

Definition ascii_bytes (s : string) : bytes := map byte_of_N (py s).

(** [digest[i : i + 2] for i in range(0, len(digest), 2)]. *)
Fixpoint slices2 (s : str) : list str :=
  match s with
  | a :: b :: rest => [a; b] :: slices2 rest
  | [a] => [[a]]
  | [] => []
  end.

(** [compute_fingerprint] (app.py, lines 31-34). *)
Definition compute_fingerprint (public_key_b64 : str) : outcome str :=
  match Base64.b64decode public_key_b64 with
  | Raise e => Raise e
  | Ret der =>
    let digest := SHA256.hexdigest der in
    Ret (str_join (py ":") (slices2 digest))
  end.

(* ===================================================================== *)
(** ** Values exchanged with clients, and dicts *)
(* ===================================================================== *)

(** A binary64 float, as its bit pattern; the handlers only ever test
    one for truth and pass it on. *)
Definition pyfloat := N.

(** What a Socket.IO JSON payload decodes to ([Any] in the source's type
    hints). *)
Inductive value :=
| VNone
| VBool (b : bool)
| VInt (n : Z)
| VFloat (f : pyfloat)
| VStr (s : str)
| VList (items : list value)
| VDict (items : list (str * value)).

(** A Python dict with [str] keys: bindings in insertion order. *)
Abbreviation pydict V := (list (str * V)).

Section Dict.
Context {V : Type}.

(** [d.get(k)] *)
Fixpoint dict_get (k : str) (d : pydict V) : option V :=
  match d with
  | [] => None
  | (k', v) :: d' => if str_eqb k k' then Some v else dict_get k d'
  end.

(** [d[k] = v]: an existing key keeps its position. *)
Fixpoint dict_set (k : str) (v : V) (d : pydict V) : pydict V :=
  match d with
  | [] => [(k, v)]
  | (k', v') :: d' =>
    if str_eqb k k' then (k, v) :: d' else (k', v') :: dict_set k v d'
  end.

(** The dict left by [d.pop(k, None)]. *)
Fixpoint dict_del (k : str) (d : pydict V) : pydict V :=
  match d with
  | [] => []
  | (k', v') :: d' =>
    if str_eqb k k' then d' else (k', v') :: dict_del k d'
  end.

(** [d.keys()] *)
Definition dict_keys (d : pydict V) : list str := map fst d.
End Dict.

(** Truth value of a Python object ([if x], [x or y], [not x]). *)
Definition truthy (v : value) : bool :=
  match v with
  | VNone => false
  | VBool b => b
  | VInt n => negb (n =? 0)%Z
  | VFloat f => negb (f mod 2 ^ 63 =? 0)
  | VStr s => negb (bool_decide (s = []))
  | VList l => negb (bool_decide (length l = 0%nat))
  | VDict d => negb (bool_decide (length d = 0%nat))
  end.

(** [data.get(k)] on a payload: [None] for an absent key. *)
Definition data_get (k : string) (data : pydict value) : value :=
  default VNone (dict_get (py k) data).

(** [x or y] *)
Definition py_or (x y : value) : value := if truthy x then x else y.

(** [sorted(xs, key=key)]: a stable sort that only uses [<] on keys. *)
Section Sorted.
Context {A : Type} (key : A -> str).

Fixpoint insert_by (x : A) (l : list A) : list A :=
  match l with
  | [] => [x]
  | y :: l' =>
    if str_ltb (key y) (key x) then y :: insert_by x l' else x :: y :: l'
  end.

Definition sorted_by (l : list A) : list A := foldr insert_by [] l.
End Sorted.

(** [sorted(xs)] on strings. *)
Definition sorted (l : list str) : list str := sorted_by (fun s => s) l.

(* ===================================================================== *)
(** ** Module state and the request context *)
(* ===================================================================== *)

(** The value of [participants[username]]. *)
Record info := Info {
  public_key : value;
  fingerprint : str;
  sid : str;
  joined_at : pyfloat;
}.

(** An element of [logs]. *)
Record log_entry := LogEntry { nonce : str; ciphertext : str }.

(** The module-level state of app.py, and the dict objects a handler
    builds while it runs ([objects], addressed by position). *)
Record world := World {
  participants : pydict info;
  sessions : gmap str str;
  logs : list log_entry;
  objects : list (pydict value);
}.

Definition initial_world : world := World [] ∅ [] [].

(** What a handler reads from its surroundings during one call: the
    connection that sent the event, the clock, and the operating system's
    random generator. *)
Record request := Request {
  request_sid : str;
  time_time : pyfloat;         (* time.time() *)
  time_strftime_gmtime : str;  (* time.strftime("%Y-%m-%dT%H:%M:%SZ", time.gmtime()) *)
  urandom_octet : nat -> byte; (* the octets os.urandom hands out, in order *)
}.

(** Who receives an emitted event. *)
Inductive audience :=
| ToSid (s : str)          (* emit(...): back to the calling connection *)
| ToAll                    (* socketio.emit(...) *)
| ToAllExcept (s : str).   (* socketio.emit(..., include_self=False) *)

Record emission := Emission {
  ev_name : string;
  ev_payload : value;
  ev_to : audience;
}.

(** Whether the connection [c] is sent an emission. *)
Definition delivered_to (c : str) (e : emission) : bool :=
  match ev_to e with
  | ToSid s => str_eqb c s
  | ToAll => true
  | ToAllExcept s => negb (str_eqb c s)
  end.

(** The libraries the server is linked against and its configuration:
    [str.lower], [json], [AESGCM] and the log key. *)
Class Platform := {
  str_lower : str -> str;
  (** [json.dumps(v, separators=(",", ":")).encode()] *)
  json_dumps : value -> bytes;
  (** [json.loads(b.decode())] *)
  json_loads : bytes -> outcome value;
  (** [AESGCM(key).encrypt(nonce, data, associated_data)] *)
  aesgcm_encrypt : bytes -> bytes -> bytes -> option bytes -> bytes;
  (** [AESGCM(key).decrypt(nonce, data, associated_data)]; [None] stands
      for [InvalidTag]. *)
  aesgcm_decrypt : bytes -> bytes -> bytes -> option bytes -> option bytes;
  LOG_KEY : bytes;
}.

(* ===================================================================== *)
(** ** The handler monad *)
(* ===================================================================== *)

(** A handler reads the request, updates the world, emits events and
    either returns or raises; what it did before raising stays done. *)
Definition M (A : Type) : Type :=
  request -> world -> outcome A * world * list emission.

Definition M_ret {A} (a : A) : M A := fun _ w => (Ret a, w, []).

Definition M_bind {A B} (m : M A) (f : A -> M B) : M B :=
  fun rq w =>
    match m rq w with
    | (Ret a, w1, ev1) =>
      let '(o, w2, ev2) := f a rq w1 in (o, w2, ev1 ++ ev2)
    | (Raise e, w1, ev1) => (Raise e, w1, ev1)
    end.

#[global] Instance M_mret : MRet M := @M_ret.
#[global] Instance M_mbind : MBind M := fun A B f m => M_bind m f.

Definition ask : M request := fun rq w => (Ret rq, w, []).
Definition get : M world := fun _ w => (Ret w, w, []).
Definition put (w : world) : M unit := fun _ _ => (Ret tt, w, []).
Definition raise {A} (e : exn) : M A := fun _ w => (Raise e, w, []).
Definition lift {A} (o : outcome A) : M A := fun _ w => (o, w, []).
Definition send (e : emission) : M unit := fun _ w => (Ret tt, w, [e]).

Definition final_world {A} (r : outcome A * world * list emission) : world :=
  snd (fst r).
Definition emitted {A} (r : outcome A * world * list emission) : list emission :=
  snd r.
Definition result {A} (r : outcome A * world * list emission) : outcome A :=
  fst (fst r).


(** [os.urandom(n)] *)
Definition os_urandom (rq : request) (n : nat) : bytes :=
  map (urandom_octet rq) (seq 0 n).

(** [emit(name, payload)] of flask_socketio: to the calling connection. *)
Definition emit (name : string) (payload : value) : M unit :=
  rq ← ask; send (Emission name payload (ToSid (request_sid rq))).

(** [socketio.emit(name, payload, include_self=...)]: to every connection,
    the calling one left out when [include_self] is false. *)
Definition socketio_emit (name : string) (payload : value)
    (include_self : bool) : M unit :=
  rq ← ask;
  send (Emission name payload
          (if include_self then ToAll else ToAllExcept (request_sid rq))).

(** Updates of the module-level containers. *)
Definition set_participants (p : pydict info) : M unit :=
  w ← get; put (World p (sessions w) (logs w) (objects w)).
Definition set_sessions (s : gmap str str) : M unit :=
  w ← get; put (World (participants w) s (logs w) (objects w)).
Definition logs_append (e : log_entry) : M unit :=
  w ← get; put (World (participants w) (sessions w) (logs w ++ [e]) (objects w)).

(** [sessions.pop(sid, None)] and [participants.pop(username, None)]. *)
Definition sessions_pop (s : str) : M (option str) :=
  w ← get; set_sessions (delete s (sessions w));; mret (sessions w !! s).
Definition participants_pop (u : str) : M (option info) :=
  w ← get; set_participants (dict_del u (participants w));;
  mret (dict_get u (participants w)).

(** Dict objects: a dict display or [dict(...)] makes a new object, a
    name refers to it by position in [objects]. *)
Definition new_dict (d : pydict value) : M nat :=
  w ← get;
  put (World (participants w) (sessions w) (logs w) (objects w ++ [d]));;
  mret (length (objects w)).
Definition read_dict (r : nat) : M (pydict value) :=
  w ← get; mret (default [] (objects w !! r)).
(** [d.setdefault(k, v)] on the object [r]. *)
Definition dict_setdefault (r : nat) (k : str) (v : value) : M unit :=
  d ← read_dict r;
  match dict_get k d with
  | Some _ => mret tt
  | None =>
    w ← get;
    put (World (participants w) (sessions w) (logs w)
               (<[r := dict_set k v d]> (objects w)))
  end.

(** A one-entry payload [{"message": text}]. *)
Definition message (text : string) : value :=
  VDict [(py "message", VStr (py text))].

Section Server.
Context `{Platform}.

(** [participant_snapshot] (lines 37-45). *)
Definition participant_snapshot (w : world) : value :=
  VList (map (fun item : str * info =>
                VDict [(py "username", VStr item.1);
                       (py "fingerprint", VStr (fingerprint item.2));
                       (py "public_key", public_key item.2)])
             (sorted_by (fun item : str * info => str_lower item.1)
                        (participants w))).

(** [broadcast_participants] (lines 48-49). *)
Definition broadcast_participants : M unit :=
  w ← get;
  socketio_emit "participants"
    (VDict [(py "participants", participant_snapshot w)]) true.

(** [store_encrypted_log] (lines 52-63); [payload] names a dict
    object. *)
Definition store_encrypted_log (payload : nat) : M unit :=
  d ← read_dict payload;
  entry_payload ← new_dict d;
  rq ← ask;
  dict_setdefault entry_payload (py "stored_at")
    (VStr (time_strftime_gmtime rq));;
  let nonce := os_urandom rq 12 in
  e ← read_dict entry_payload;
  let serialized := json_dumps (VDict e) in
  let ciphertext := aesgcm_encrypt LOG_KEY nonce serialized None in
  logs_append (LogEntry (Base64.b64encode nonce)
                        (Base64.b64encode ciphertext)).

(** [collect_encrypted_logs] (lines 66-67). *)
Definition collect_encrypted_logs (w : world) : list log_entry := logs w.

(** [remove_participant] (lines 70-84).  A record is a dict of four
    entries, so [if not info] only tests for [None]. *)
Definition remove_participant (sid_ : str) : M unit :=
  username ← sessions_pop sid_;
  match username with
  | None => mret tt
  | Some username =>
    if negb (truthy (VStr username)) then mret tt
    else
      info ← participants_pop username;
      match info with
      | None => mret tt
      | Some info =>
        socketio_emit "user_left"
          (VDict [(py "username", VStr username);
                  (py "fingerprint", VStr (fingerprint info))]) false;;
        broadcast_participants
      end
  end.

(** [handle_register] (lines 112-154). *)
Definition handle_register (data : pydict value) : M unit :=
  username ← match py_or (data_get "username" data) (VStr []) with
             | VStr s => mret (strip s)
             | _ => raise AttributeError
             end;
  let public_key := data_get "public_key" data in
  if negb (truthy (VStr username)) || negb (truthy public_key) then
    emit "register_error" (message "Username and public key are required.")
  else if (length username <? 2)%nat then
    emit "register_error" (message "Username must be at least 2 characters.")
  else
    rq ← ask;
    w ← get;
    let existing := dict_get username (participants w) in
    if match existing with
       | Some i => negb (str_eqb (sid i) (request_sid rq))
       | None => false
       end
    then emit "register_error" (message "That username is already in use.")
    else
      fingerprint ← lift match public_key with
                         | VStr k => compute_fingerprint k
                         | _ => Raise TypeError
                         end;
      remove_participant (request_sid rq);;
      w ← get;
      set_participants
        (dict_set username
           (Info public_key fingerprint (request_sid rq) (time_time rq))
           (participants w));;
      w ← get;
      set_sessions (<[request_sid rq := username]> (sessions w));;
      w ← get;
      let payload :=
        VDict [(py "username", VStr username);
               (py "fingerprint", VStr fingerprint);
               (py "participants", participant_snapshot w)] in
      emit "register_success" payload;;
      socketio_emit "user_joined"
        (VDict [(py "username", VStr username);
                (py "fingerprint", VStr fingerprint)]) false;;
      broadcast_participants.

(** [participants.get(key)] for a key of any type: only a string can be
    equal to a username, and a list or a dict cannot be hashed. *)
Definition participants_get (key : value) : M (option info) :=
  match key with
  | VStr s => w ← get; mret (dict_get s (participants w))
  | VList _ | VDict _ => raise TypeError
  | _ => mret None
  end.

(** [handle_send_message] (lines 157-198). *)
Definition handle_send_message (data : pydict value) : M unit :=
  let sender := data_get "from" data in
  let ciphertext := data_get "ciphertext" data in
  let iv := data_get "iv" data in
  let timestamp := data_get "timestamp" data in
  let envelopes := py_or (data_get "envelopes" data) (VDict []) in
  if negb (truthy sender) then
    emit "delivery_error" (message "Missing sender username.")
  else
    rq ← ask;
    member ← participants_get sender;
    if match member with
       | Some m => negb (str_eqb (sid m) (request_sid rq))
       | None => true
       end
    then emit "delivery_error" (message "Sender not registered.")
    else
      w ← get;
      let expected_recipients : gset str :=
        list_to_set (dict_keys (participants w)) in
      actual_recipients ← match envelopes with
                          | VDict e => mret (list_to_set (C := gset str) (dict_keys e))
                          | _ => raise AttributeError
                          end;
      let missing := expected_recipients ∖ actual_recipients in
      if negb (bool_decide (elements missing = [])) then
        emit "delivery_error"
          (VDict [(py "message",
                   VStr (py "Missing envelopes for: "
                         ++ str_join (py ", ") (sorted (elements missing))))])
      else
        payload ← new_dict [(py "from", sender);
                            (py "ciphertext", ciphertext);
                            (py "iv", iv);
                            (py "timestamp", timestamp);
                            (py "envelopes", envelopes)];
        store_encrypted_log payload;;
        p ← read_dict payload;
        socketio_emit "receive_message" (VDict p) true.

(** [handle_request_public_key] (lines 201-215). *)
Definition handle_request_public_key (data : pydict value) : M unit :=
  let username := data_get "username" data in
  if negb (truthy username) then
    emit "public_key"
      (VDict [(py "username", VNone); (py "public_key", VNone)])
  else
    member ← participants_get username;
    emit "public_key"
      (VDict [(py "username", username);
              (py "public_key",
               match member with Some m => public_key m | None => VNone end);
              (py "fingerprint",
               match member with
               | Some m => VStr (fingerprint m)
               | None => VNone
               end)]).

(** [handle_leave_chat] and [handle_disconnect] (lines 218-225). *)
Definition handle_leave_chat : M unit :=
  rq ← ask; remove_participant (request_sid rq).
Definition handle_disconnect : M unit :=
  rq ← ask; remove_participant (request_sid rq).

(** [decrypt_entries] (scripts/decrypt_logs.py, lines 22-29); [aes] is
    the key the [AESGCM] object was made from. *)
Fixpoint decrypt_entries (entries : list log_entry) (aes : bytes)
    : outcome (list value) :=
  match entries with
  | [] => Ret []
  | entry :: rest =>
    match Base64.b64decode (nonce entry) with
    | Raise e => Raise e
    | Ret nonce =>
      match Base64.b64decode (ciphertext entry) with
      | Raise e => Raise e
      | Ret ciphertext =>
        match aesgcm_decrypt aes nonce ciphertext None with
        | None => Raise InvalidTag
        | Some plaintext =>
          match json_loads plaintext with
          | Raise e => Raise e
          | Ret v =>
            match decrypt_entries rest aes with
            | Raise e => Raise e
            | Ret vs => Ret (v :: vs)
            end
          end
        end
      end
    end
  end.

(** The Socket.IO events the server handles, and a run of the server
    over a sequence of them, each with its request context. *)
Inductive event :=
| Register (data : pydict value)
| SendMessage (data : pydict value)
| RequestPublicKey (data : pydict value)
| LeaveChat
| Disconnect.

Definition handle (e : event) : M unit :=
  match e with
  | Register data => handle_register data
  | SendMessage data => handle_send_message data
  | RequestPublicKey data => handle_request_public_key data
  | LeaveChat => handle_leave_chat
  | Disconnect => handle_disconnect
  end.

Definition step (w : world) (re : request * event) : world :=
  final_world (handle re.2 re.1 w).

Definition run (w : world) (trace : list (request * event)) : world :=
  fold_left step trace w.

End Server.

(* ===================================================================== *)
(** ** A platform to run the handlers on *)
(* ===================================================================== *)

(** The theorems below hold for every [Platform].  To evaluate the
    handlers on concrete requests one is fixed here: [str.lower] on ASCII
    letters, compact JSON without floats, and an encrypt-then-MAC AEAD
    built from SHA-256 in the place of AES-GCM. *)
Module Demo.

Definition lower (s : str) : str :=
  map (fun c => if (65 <=? c) && (c <=? 90) then c + 32 else c) s.

(** *** JSON text *)

Fixpoint digits (fuel : nat) (n : N) (acc : str) : str :=
  match fuel with
  | O => acc
  | S fuel' =>
    let acc' := (48 + n mod 10) :: acc in
    if n <? 10 then acc' else digits fuel' (n / 10) acc'
  end.

Definition decimal (z : Z) : str :=
  let n := Z.abs_N z in
  (if (z <? 0)%Z then [45] else []) ++ digits (S (N.to_nat (N.log2 n))) n [].

Definition hex4 (c : N) : str :=
  map (fun i => SHA256.hex_digit (N.land (N.shiftr c (4 * i)) 15)) [3; 2; 1; 0].

Definition escape (c : N) : str :=
  if c =? 34 then [92; 34]
  else if c =? 92 then [92; 92]
  else if c =? 10 then [92; 110]
  else if c =? 13 then [92; 114]
  else if c =? 9 then [92; 116]
  else if c =? 8 then [92; 98]
  else if c =? 12 then [92; 102]
  else if (c <? 32) || (126 <? c) && (c <? 0x10000) then [92; 117] ++ hex4 c
  else if 0xFFFF <? c then
    [92; 117] ++ hex4 (0xD800 + N.shiftr (c - 0x10000) 10)
    ++ [92; 117] ++ hex4 (0xDC00 + N.land (c - 0x10000) 0x3FF)
  else [c].

Definition quote (s : str) : str := [34] ++ flat_map escape s ++ [34].

Fixpoint dumps (v : value) : str :=
  match v with
  | VNone => py "null"
  | VBool true => py "true"
  | VBool false => py "false"
  | VInt n => decimal n
  | VFloat _ => py "NaN"
  | VStr s => quote s
  | VList l => [91] ++ str_join [44] (map dumps l) ++ [93]
  | VDict d =>
    [123]
    ++ str_join [44]
         ((fix members (d : list (str * value)) : list str :=
             match d with
             | [] => []
             | (k, x) :: d' => (quote k ++ [58] ++ dumps x) :: members d'
             end) d)
    ++ [125]
  end.

Definition unhex (c : N) : option N :=
  if (48 <=? c) && (c <=? 57) then Some (c - 48)
  else if (97 <=? c) && (c <=? 102) then Some (c - 87)
  else if (65 <=? c) && (c <=? 70) then Some (c - 55)
  else None.

Definition parse_hex4 (s : str) : option (N * str) :=
  match s with
  | a :: b :: c :: d :: rest =>
    a ← unhex a; b ← unhex b; c ← unhex c; d ← unhex d;
    Some (((a * 16 + b) * 16 + c) * 16 + d, rest)
  | _ => None
  end.

(** The character an escape sequence [\e] stands for. *)
Definition unescape (e : N) : option N :=
  if e =? 110 then Some 10 else if e =? 114 then Some 13
  else if e =? 116 then Some 9 else if e =? 98 then Some 8
  else if e =? 102 then Some 12
  else if (e =? 34) || (e =? 92) || (e =? 47) then Some e
  else None.

(** A low surrogate escape at the head of [s], if there is one. *)
Definition parse_low (s : str) : option (N * str) :=
  match s with
  | b :: u :: s1 =>
    if (b =? 92) && (u =? 117) then
      match parse_hex4 s1 with
      | Some (lo, s2) =>
        if (0xDC00 <=? lo) && (lo <=? 0xDFFF) then Some (lo, s2) else None
      | None => None
      end
    else None
  | _ => None
  end.

(** The characters of a string literal up to its closing quote. *)
Fixpoint parse_chars (fuel : nat) (s acc : str) : option (str * str) :=
  match fuel, s with
  | S fuel', c :: s1 =>
    if c =? 34 then Some (rev acc, s1)
    else if c =? 92 then
      match s1 with
      | e :: s2 =>
        if e =? 117 then
          '(hi, s3) ← parse_hex4 s2;
          match (if (0xD800 <=? hi) && (hi <=? 0xDBFF)
                 then parse_low s3 else None) with
          | Some (lo, s4) =>
            parse_chars fuel' s4
              (0x10000 + (hi - 0xD800) * 0x400 + (lo - 0xDC00) :: acc)
          | None => parse_chars fuel' s3 (hi :: acc)
          end
        else c' ← unescape e; parse_chars fuel' s2 (c' :: acc)
      | [] => None
      end
    else parse_chars fuel' s1 (c :: acc)
  | _, _ => None
  end.

Fixpoint parse_digits (s : str) (acc : N) : N * str :=
  match s with
  | c :: rest =>
    if (48 <=? c) && (c <=? 57) then parse_digits rest (acc * 10 + (c - 48))
    else (acc, s)
  | [] => (acc, [])
  end.

Definition expect (lit : string) (v : value) (s : str) : option (value * str) :=
  if bool_decide (take (length (py lit)) s = py lit)
  then Some (v, drop (length (py lit)) s) else None.

Section Members.
Context (parse_value : str -> option (value * str)).

Fixpoint parse_items (fuel : nat) (s : str) (acc : list value)
    : option (list value * str) :=
  match fuel with
  | O => None
  | S fuel' =>
    '(v, s1) ← parse_value s;
    match s1 with
    | c :: s2 =>
      if c =? 44 then parse_items fuel' s2 (v :: acc)
      else if c =? 93 then Some (rev (v :: acc), s2)
      else None
    | [] => None
    end
  end.

Fixpoint parse_members (fuel : nat) (s : str) (acc : list (str * value))
    : option (list (str * value) * str) :=
  match fuel, s with
  | S fuel', q :: s1 =>
    if q =? 34 then
      '(k, s2) ← parse_chars (length s1) s1 [];
      match s2 with
      | colon :: s3 =>
        if colon =? 58 then
          '(v, s4) ← parse_value s3;
          match s4 with
          | c :: s5 =>
            if c =? 44 then parse_members fuel' s5 ((k, v) :: acc)
            else if c =? 125 then Some (rev ((k, v) :: acc), s5)
            else None
          | [] => None
          end
        else None
      | [] => None
      end
    else None
  | _, _ => None
  end.
End Members.

Fixpoint parse_value (fuel : nat) (s : str) : option (value * str) :=
  match fuel, s with
  | S fuel', c :: rest =>
    if c =? 110 then expect "null" VNone s
    else if c =? 116 then expect "true" (VBool true) s
    else if c =? 102 then expect "false" (VBool false) s
    else if c =? 78 then expect "NaN" (VFloat 0x7FF8000000000000) s
    else if c =? 34 then
      '(t, s1) ← parse_chars (length rest) rest []; Some (VStr t, s1)
    else if c =? 91 then
      match rest with
      | c' :: s1 =>
        if c' =? 93 then Some (VList [], s1)
        else '(l, r) ← parse_items (parse_value fuel') (length rest) rest [];
             Some (VList l, r)
      | [] => None
      end
    else if c =? 123 then
      match rest with
      | c' :: s1 =>
        if c' =? 125 then Some (VDict [], s1)
        else '(d, r) ← parse_members (parse_value fuel') (length rest) rest [];
             Some (VDict d, r)
      | [] => None
      end
    else if c =? 45 then
      match rest with
      | d :: _ =>
        if (48 <=? d) && (d <=? 57) then
          let '(n, r) := parse_digits rest 0 in Some (VInt (- Z.of_N n), r)
        else None
      | [] => None
      end
    else if (48 <=? c) && (c <=? 57) then
      let '(n, r) := parse_digits s 0 in Some (VInt (Z.of_N n), r)
    else None
  | _, _ => None
  end.

Definition loads (s : str) : outcome value :=
  match parse_value (S (length s)) s with
  | Some (v, []) => Ret v
  | _ => Raise JSONDecodeError
  end.

(** [str.encode()] and [bytes.decode()] on ASCII text, which is all
    [dumps] produces. *)
Definition encode (s : str) : bytes := map byte_of_N s.
Definition decode (b : bytes) : str := map Byte.to_N b.

(** *** An AEAD from SHA-256: counter-mode keystream, 16-octet tag over
    key, nonce, associated data and ciphertext. *)

Definition xor_bytes (a b : bytes) : bytes :=
  zip_with (fun x y => byte_of_N (N.lxor (Byte.to_N x) (Byte.to_N y))) a b.

Fixpoint keystream (blocks : nat) (key nonce : bytes) (ctr : N) : bytes :=
  match blocks with
  | O => []
  | S n => SHA256.digest (key ++ nonce ++ SHA256.be_bytes 4 ctr)
           ++ keystream n key nonce (ctr + 1)
  end.

Definition tag (key nonce : bytes) (ad : option bytes) (ct : bytes) : bytes :=
  take 16 (SHA256.digest (key ++ nonce ++ default [] ad ++ ct)).

Definition encrypt (key nonce data : bytes) (ad : option bytes) : bytes :=
  let ct := xor_bytes data (keystream (S (length data / 32)) key nonce 0) in
  ct ++ tag key nonce ad ct.

Definition decrypt (key nonce data : bytes) (ad : option bytes)
    : option bytes :=
  let n := (length data - 16)%nat in
  let ct := take n data in
  if bool_decide (16 <= length data)%nat
     && bool_decide (drop n data = tag key nonce ad ct)
  then Some (xor_bytes ct (keystream (S (n / 32)) key nonce 0))
  else None.

#[global] Instance platform : Platform := {
  str_lower := lower;
  json_dumps v := encode (dumps v);
  json_loads b := loads (decode b);
  aesgcm_encrypt := encrypt;
  aesgcm_decrypt := decrypt;
  LOG_KEY := SHA256.digest [];
}.

End Demo.


(* ===================================================================== *)
(** ** Notions used in the statements *)
(* ===================================================================== *)

(** [a <= b], as the sort sees it: not [b < a]. *)
Definition str_le (a b : str) : Prop := str_ltb b a = false.

(** [a <= b] on sort keys. *)
Definition key_le {A : Type} (key : A -> str) (a b : A) : Prop :=
  str_le (key a) (key b).

(** The world after [sessions.pop(c)] and after [participants.pop(u)]. *)
Definition without_session (c : str) (w : world) : world :=
  World (participants w) (delete c (sessions w)) (logs w) (objects w).
Definition without_participant (u : str) (w : world) : world :=
  World (dict_del u (participants w)) (sessions w) (logs w) (objects w).

(** The world after [participants[u] = i; sessions[c] = u]. *)
Definition with_binding (c u : str) (i : info) (w : world) : world :=
  World (dict_set u i (participants w)) (<[c := u]> (sessions w))
        (logs w) (objects w).

Definition user_event (name : string) (u fp : str) (c : str) : emission :=
  Emission name
    (VDict [(py "username", VStr u); (py "fingerprint", VStr fp)])
    (ToAllExcept c).

(** What every reachable state satisfies: usernames are distinct and at
    least two characters long, and [sessions] is exactly the reverse
    index of the [sid] fields of [participants]. *)
Definition registry_inv (w : world) : Prop :=
  NoDup (dict_keys (participants w))
  /\ (forall u, u ∈ dict_keys (participants w) -> (2 <= length u)%nat)
  /\ (forall c u, sessions w !! c = Some u <->
                  exists i, dict_get u (participants w) = Some i /\ sid i = c).

(** A lowercase hexadecimal digit. *)
Definition lower_hex (c : N) : bool :=
  ((48 <=? c) && (c <=? 57)) || ((97 <=? c) && (c <=? 102)).

(** The username a row of a snapshot carries, and whether a snapshot
    lists a username. *)
Definition row_username (row : value) : option value :=
  match row with
  | VDict d => dict_get (py "username") d
  | _ => None
  end.

Definition listed (u : str) (snapshot : value) : Prop :=
  match snapshot with
  | VList rows => exists row, row ∈ rows /\ row_username row = Some (VStr u)
  | _ => False
  end.

Section Notions.
Context `{Platform}.

Definition snapshot_event (w : world) : emission :=
  Emission "participants"
    (VDict [(py "participants", participant_snapshot w)]) ToAll.

(** The world [remove_participant] leaves, whatever the state. *)
Definition removed (c : str) (w : world) : world :=
  match sessions w !! c with
  | Some u =>
    if truthy (VStr u) then without_participant u (without_session c w)
    else without_session c w
  | None => w
  end.

Definition register_success_event (u fp : str) (c : str) (w : world)
    : emission :=
  Emission "register_success"
    (VDict [(py "username", VStr u);
            (py "fingerprint", VStr fp);
            (py "participants", participant_snapshot w)])
    (ToSid c).

(** The request is accepted for the name [u], key [k], fingerprint
    [fp]: the checks of lines 114-129 all pass. *)
Definition register_accepts (data : pydict value) (rq : request)
    (w : world) (u : str) (k : value) (fp : str) : Prop :=
  (exists s, py_or (data_get "username" data) (VStr []) = VStr s
             /\ u = strip s)
  /\ (2 <= length u)%nat
  /\ k = data_get "public_key" data
  /\ truthy k = true
  /\ (exists k', k = VStr k' /\ compute_fingerprint k' = Ret fp)
  /\ (forall j, dict_get u (participants w) = Some j ->
                sid j = request_sid rq).

(** The dict [store_encrypted_log] serializes: the copy of the payload,
    with [stored_at] set unless the payload already had one. *)
Definition entry_payload (rq : request) (d : pydict value) : pydict value :=
  match dict_get (py "stored_at") d with
  | Some _ => d
  | None => dict_set (py "stored_at") (VStr (time_strftime_gmtime rq)) d
  end.

(** The entry appended for the payload [d]. *)
Definition log_entry_for (rq : request) (d : pydict value) : log_entry :=
  let nonce := os_urandom rq 12 in
  LogEntry (Base64.b64encode nonce)
    (Base64.b64encode
       (aesgcm_encrypt LOG_KEY nonce
          (json_dumps (VDict (entry_payload rq d))) None)).

(** The dict built at lines 189-195. *)
Definition relay_payload (data : pydict value) : pydict value :=
  [(py "from", data_get "from" data);
   (py "ciphertext", data_get "ciphertext" data);
   (py "iv", data_get "iv" data);
   (py "timestamp", data_get "timestamp" data);
   (py "envelopes", py_or (data_get "envelopes" data) (VDict []))].

(** [expected_recipients - actual_recipients] *)
Definition missing_envelopes (w : world) (e : pydict value) : gset str :=
  list_to_set (dict_keys (participants w)) ∖ list_to_set (dict_keys e).

Definition delivery_error (text : str) (c : str) : emission :=
  Emission "delivery_error" (VDict [(py "message", VStr text)]) (ToSid c).

Definition missing_envelopes_text (w : world) (e : pydict value) : str :=
  py "Missing envelopes for: "
  ++ str_join (py ", ") (sorted (elements (missing_envelopes w e))).

(** The record found for a sender of any type. *)
Definition member_of (w : world) (sender : value) : option info :=
  match sender with
  | VStr s => dict_get s (participants w)
  | _ => None
  end.

(** The check of line 170 passes. *)
Definition sender_bound (rq : request) (w : world) (sender : value) : bool :=
  match member_of w sender with
  | Some m => str_eqb (sid m) (request_sid rq)
  | None => false
  end.

Definition hashable (v : value) : bool :=
  match v with VList _ | VDict _ => false | _ => true end.

(** The world after a relay: one more log entry, and the two dict
    objects the handler made. *)
Definition relayed (rq : request) (data : pydict value) (w : world) : world :=
  World (participants w) (sessions w)
        (logs w ++ [log_entry_for rq (relay_payload data)])
        (objects w ++ [relay_payload data;
                       entry_payload rq (relay_payload data)]).

End Notions.

(* ===================================================================== *)
(** ** Concrete requests, for the examples *)
(* ===================================================================== *)

Module Scenario.

(** A request from the connection [c]. *)
Definition conn (c : string) : request :=
  Request (py c) 0x41D9000000000000 (py "2024-01-01T00:00:00Z")
          (fun i => byte_of_N (N.of_nat i)).

(** The payload of a [register] event. *)
Definition registration (username key : string) : pydict value :=
  [(py "username", VStr (py username)); (py "public_key", VStr (py key))].

(** The payload of a [send_message] event with one envelope per name in
    [recipients]. *)
Definition letter (sender : string) (recipients : list string)
    : pydict value :=
  [(py "from", VStr (py sender));
   (py "ciphertext", VStr (py "Y3Q="));
   (py "iv", VStr (py "aXY="));
   (py "timestamp", VInt 1704067200);
   (py "envelopes",
    VDict (map (fun r => (py r, VStr (py "ZW52"))) recipients))].

(** alice on connection s1 and bob on connection s2 (the spec's
    scenario 2), on the [Demo] platform. *)
Definition alice_and_bob : world :=
  run (H := Demo.platform) initial_world
    [(conn "s1", Register (registration "alice" "YQ=="));
     (conn "s2", Register (registration "bob" "Yg=="))].

End Scenario.

(* ===================================================================== *)
(** ** The HTTP routes, the start-up of the log cipher, the decryption
       tool *)
(* ===================================================================== *)

(** A Flask response: status code and JSON body. *)
Record response := Response { status_code : N; body : value }.

(** [health] (app.py, lines 92-94). *)
Definition health : response :=
  Response 200 (VDict [(py "status", VStr (py "ok"))]).

(** An element of [logs] as the dict it is in the source. *)
Definition entry_value (e : log_entry) : value :=
  VDict [(py "nonce", VStr (nonce e)); (py "ciphertext", VStr (ciphertext e))].

(** Truth value of what [os.getenv] returns: a string or [None]. *)
Definition truthy_opt (o : option str) : bool :=
  match o with
  | Some s => truthy (VStr s)
  | None => false
  end.

(** [get_logs] (app.py, lines 102-109); the arguments are
    [os.getenv("LOG_EXPORT_TOKEN")] and
    [request.headers.get("X-Log-Token")]. *)
Definition get_logs (LOG_EXPORT_TOKEN X_Log_Token : option str) (w : world)
    : response :=
  let token_required := LOG_EXPORT_TOKEN in
  let supplied := X_Log_Token in
  if truthy_opt token_required
     && negb (bool_decide (supplied = token_required))
  then Response 401 (VDict [(py "error", VStr (py "unauthorized"))])
  else Response 200
         (VDict [(py "entries",
                  VList (map entry_value (collect_encrypted_logs w)))]).

(** [api_users] (app.py, lines 97-99). *)
Definition api_users `{Platform} (w : world) : response :=
  Response 200 (VDict [(py "participants", participant_snapshot w)]).

(** [AESGCM(key)]: the constructor accepts keys of 128, 192 and 256 bits
    and raises [ValueError] for any other. *)
Definition AESGCM (key : bytes) : outcome bytes :=
  if bool_decide (length key = 16%nat) || bool_decide (length key = 24%nat)
     || bool_decide (length key = 32%nat)
  then Ret key else Raise ValueError.

(** The module-level code of app.py, lines 20-28: the key [log_cipher] is
    made from.  The first argument is [os.getenv("SERVER_LOG_KEY_B64")];
    [AESGCM.generate_key(bit_length=256)] draws 32 octets from the
    operating system. *)
Definition log_cipher (LOG_KEY_B64 : option str) (urandom : nat -> byte)
    : outcome bytes :=
  match (if truthy_opt LOG_KEY_B64
         then Base64.b64decode (default [] LOG_KEY_B64)
         else Ret (map urandom (seq 0 32))) with
  | Ret key => AESGCM key
  | Raise e => Raise e
  end.

(** scripts/decrypt_logs.py. *)
Module DecryptLogs.

(** What the tool can end with besides a result. *)
Inductive tool_exn :=
| Python (e : exn)
| KeyError (key : str)
| RuntimeError (msg : string)
| SystemExit (code : Z).

Inductive tool_outcome (A : Type) :=
| Done (a : A)
| Failed (e : tool_exn).
Arguments Done {A} a.
Arguments Failed {A} e.

#[global] Instance tool_mret : MRet tool_outcome := @Done.
#[global] Instance tool_mbind : MBind tool_outcome := fun A B f m =>
  match m with
  | Done a => f a
  | Failed e => Failed e
  end.

Definition python {A} (o : outcome A) : tool_outcome A :=
  match o with
  | Ret a => Done a
  | Raise e => Failed (Python e)
  end.

(** [load_key] (lines 12-19); the argument is
    [os.getenv("SERVER_LOG_KEY_B64")]. *)
Definition load_key (SERVER_LOG_KEY_B64 : option str) : tool_outcome bytes :=
  let key_b64 := SERVER_LOG_KEY_B64 in
  if negb (truthy_opt key_b64) then
    Failed (RuntimeError
              "SERVER_LOG_KEY_B64 environment variable is required")
  else
    key ← python (Base64.b64decode (default [] key_b64));
    if negb (bool_decide (length key = 32%nat)) then
      Failed (RuntimeError
                "SERVER_LOG_KEY_B64 must decode to 32 bytes (256 bits)")
    else Done key.

(** [entry[k]] for an entry of any type: only a dict can be indexed by a
    string. *)
Definition subscript (entry : value) (k : string) : tool_outcome value :=
  match entry with
  | VDict d =>
    match dict_get (py k) d with
    | Some v => Done v
    | None => Failed (KeyError (py k))
    end
  | _ => Failed (Python TypeError)
  end.

(** [base64.b64decode(v)] for a value of any type. *)
Definition b64decode_value (v : value) : tool_outcome bytes :=
  match v with
  | VStr s => python (Base64.b64decode s)
  | _ => Failed (Python TypeError)
  end.

(** [decrypt_entries] (lines 22-29) on entries as [json.load] gives
    them: any values. *)
Fixpoint decrypt_entries `{Platform} (entries : list value) (aes : bytes)
    : tool_outcome (list value) :=
  match entries with
  | [] => Done []
  | entry :: rest =>
    match
      (nonce_v ← subscript entry "nonce";
       nonce ← b64decode_value nonce_v;
       ciphertext_v ← subscript entry "ciphertext";
       ciphertext ← b64decode_value ciphertext_v;
       match aesgcm_decrypt aes nonce ciphertext None with
       | None => Failed (Python InvalidTag)
       | Some plaintext => python (json_loads plaintext)
       end)
    with
    | Failed e => Failed e
    | Done v =>
      match decrypt_entries rest aes with
      | Failed e => Failed e
      | Done vs => Done (v :: vs)
      end
    end
  end.

(** What [for entry in entries] goes through, for [entries] of any
    type. *)
Definition iterate (entries : value) : tool_outcome (list value) :=
  match entries with
  | VList l => Done l
  | VDict d => Done (map (fun kv => VStr kv.1) d)
  | VStr s => Done (map (fun c => VStr [c]) s)
  | _ => Failed (Python TypeError)
  end.

(** [payload.get("entries", [])] *)
Definition get_entries (payload : value) : tool_outcome value :=
  match payload with
  | VDict d => Done (default (VList []) (dict_get (py "entries") d))
  | _ => Failed (Python AttributeError)
  end.

(** [main] (lines 32-44).  [argv] is [sys.argv]; [load path] stands for
    opening the file and [json.load]; the result is the list that is
    printed. *)
Definition main `{Platform} (argv : list str)
    (load : str -> tool_outcome value) (SERVER_LOG_KEY_B64 : option str)
    : tool_outcome (list value) :=
  if negb (bool_decide (length argv = 2%nat)) then Failed (SystemExit 1)
  else
    let log_path := default [] (argv !! 1%nat) in
    payload ← load log_path;
    entries ← get_entries payload;
    key ← load_key SERVER_LOG_KEY_B64;
    aes ← python (AESGCM key);
    entries ← iterate entries;
    decrypt_entries entries aes.

End DecryptLogs.

(** The events a run emits, in order, and the messages it relays, each
    with the request that carried it. *)
Section Transcript.
Context `{Platform}.

Fixpoint transcript (w : world) (trace : list (request * event))
    : list emission :=
  match trace with
  | [] => []
  | re :: rest => emitted (handle re.2 re.1 w) ++ transcript (step w re) rest
  end.

(** The payloads of the [receive_message] events in a list of
    emissions. *)
Definition broadcast_payloads (evs : list emission) : list (pydict value) :=
  flat_map (fun ev =>
              if String.eqb (ev_name ev) "receive_message" then
                match ev_payload ev with VDict p => [p] | _ => [] end
              else []) evs.

Fixpoint relays (w : world) (trace : list (request * event))
    : list (request * pydict value) :=
  match trace with
  | [] => []
  | re :: rest =>
    map (pair re.1) (broadcast_payloads (emitted (handle re.2 re.1 w)))
    ++ relays (step w re) rest
  end.

End Transcript.

(** A username as the registry holds them: at least two characters, no
    white space at either end. *)
Definition trimmed (s : str) : Prop :=
  (forall c rest, s = c :: rest -> py_isspace c = false)
  /\ (forall c front, s = front ++ [c] -> py_isspace c = false).

(** A record is sound for its username when the fingerprint is the one
    [compute_fingerprint] gives for the key it holds. *)
Definition record_sound (u : str) (i : info) : Prop :=
  (2 <= length u)%nat /\ trimmed u
  /\ exists k, public_key i = VStr k /\ k <> []
               /\ compute_fingerprint k = Ret (fingerprint i).

(** Every record of a state is sound. *)
Definition records_sound (w : world) : Prop :=
  Forall (fun item : str * info => record_sound item.1 item.2)
         (participants w).

(** The characters the base64 decoder looks at. *)
Definition base64_char (c : N) : bool :=
  Base64.is_alphabet c || (c =? Base64.BASE64_PAD).

(* ===================================================================== *)
(** * Properties *)
(* ===================================================================== *)

(** ** The library functions on known values *)

Example sha256_abc :
  SHA256.hexdigest (ascii_bytes "abc")
  = py "ba7816bf8f01cfea414140de5dae2223b00361a396177a9cb410ff61f20015ad".
Proof. vm_compute. reflexivity. Qed.

Example sha256_empty :
  SHA256.hexdigest []
  = py "e3b0c44298fc1c149afbf4c8996fb92427ae41e4649b934ca495991b7852b855".
Proof. vm_compute. reflexivity. Qed.

(** 56 octets: the padding spills into a second block. *)
Example sha256_two_blocks :
  SHA256.hexdigest
    (ascii_bytes "abcdbcdecdefdefgefghfghighijhijkijkljklmklmnlmnomnopnopq")
  = py "248d6a61d20638b8e5c026930c3e6039a33ce45964ff2167f6ecedd419db06c1".
Proof. vm_compute. reflexivity. Qed.

Example b64decode_padded :
  Base64.b64decode (py "aGk=") = Ret (ascii_bytes "hi").
Proof. vm_compute. reflexivity. Qed.

Example b64decode_skips_newline :
  Base64.b64decode [97; 71; 10; 107; 61] = Ret (ascii_bytes "hi").
Proof. vm_compute. reflexivity. Qed.

Example b64decode_short : Base64.b64decode (py "aGk") = Raise BinasciiError.
Proof. vm_compute. reflexivity. Qed.

Example b64decode_not_ascii : Base64.b64decode [233] = Raise ValueError.
Proof. vm_compute. reflexivity. Qed.

Example b64encode_hi : Base64.b64encode (ascii_bytes "hi") = py "aGk=".
Proof. vm_compute. reflexivity. Qed.

Example strip_spaces : strip (py "  bob ") = py "bob".
Proof. vm_compute. reflexivity. Qed.

Example sorted_names :
  sorted [py "bob"; py "alice"; py "Bob"] = [py "Bob"; py "alice"; py "bob"].
Proof. vm_compute. reflexivity. Qed.

(** ** The order on strings and [sorted] *)

Lemma str_ltb_irrefl (s : str) : str_ltb s s = false.
Proof.
  induction s as [|a s IH]; simpl; [done|].
  rewrite N.ltb_irrefl, N.eqb_refl, IH. done.
Qed.

Lemma str_ltb_trans (a b c : str) :
  str_ltb a b = true -> str_ltb b c = true -> str_ltb a c = true.
Proof.
  revert b c. induction a as [|x a IH]; intros [|y b] [|z c]; simpl; try done.
  rewrite !orb_true_iff, !andb_true_iff, !N.ltb_lt, !N.eqb_eq.
  intros [Hxy|[-> Hab]] [Hyz|[-> Hbc]]; [left; lia|left; lia|left; lia|].
  right. split; [done|]. by apply IH with b.
Qed.

Lemma str_ltb_total (a b : str) :
  str_ltb a b = false -> str_ltb b a = false -> a = b.
Proof.
  revert b. induction a as [|x a IH]; intros [|y b]; simpl; try done.
  rewrite !orb_false_iff, !andb_false_iff, !N.ltb_ge, !N.eqb_neq.
  intros [Hxy H1] [Hyx H2].
  assert (x = y) as -> by lia.
  f_equal. apply IH; [by destruct H1|by destruct H2].
Qed.

Lemma str_le_trans (a b c : str) : str_le a b -> str_le b c -> str_le a c.
Proof.
  unfold str_le. intros Hab Hbc.
  destruct (str_ltb c a) eqn:Hca; [|done].
  destruct (str_ltb a b) eqn:Hab'.
  - by rewrite (str_ltb_trans c a b) in Hbc.
  - assert (a = b) as -> by (by apply str_ltb_total). congruence.
Qed.

Section SortedFacts.
Context {A : Type} (key : A -> str).

Lemma insert_by_perm (x : A) (l : list A) : insert_by key x l ≡ₚ x :: l.
Proof.
  induction l as [|y l IH]; simpl; [done|].
  destruct (str_ltb (key y) (key x)); [|done].
  rewrite IH. apply Permutation_swap.
Qed.

Lemma sorted_by_perm (l : list A) : sorted_by key l ≡ₚ l.
Proof.
  induction l as [|x l IH]; simpl; [done|].
  rewrite insert_by_perm. by f_equiv.
Qed.

Lemma insert_by_sorted (x : A) (l : list A) :
  StronglySorted (key_le key) l ->
  StronglySorted (key_le key) (insert_by key x l).
Proof.
  induction 1 as [|y l Hl IH Hy]; simpl.
  - repeat constructor.
  - destruct (str_ltb (key y) (key x)) eqn:Hyx.
    + constructor; [done|].
      rewrite insert_by_perm. constructor; [|done].
      unfold key_le, str_le.
      destruct (str_ltb (key x) (key y)) eqn:Hxy; [|done].
      pose proof (str_ltb_trans _ _ _ Hyx Hxy) as Hc.
      by rewrite str_ltb_irrefl in Hc.
    + constructor; [by constructor|].
      constructor; [done|].
      eapply Forall_impl; [exact Hy|].
      intros z Hz. by apply str_le_trans with (key y).
Qed.

Lemma sorted_by_sorted (l : list A) :
  StronglySorted (key_le key) (sorted_by key l).
Proof.
  induction l as [|x l IH]; simpl; [constructor|by apply insert_by_sorted].
Qed.
End SortedFacts.




(** ** Dicts *)

Section DictFacts.
Context {V : Type}.
Implicit Types (d : pydict V) (k : str) (v : V).

Lemma dict_get_Some_elem_of k v d : dict_get k d = Some v -> k ∈ dict_keys d.
Proof.
  induction d as [|[k' v'] d IH]; simpl; [done|].
  unfold str_eqb. case_bool_decide as Hk.
  - subst. intros _. apply elem_of_cons. by left.
  - intros Hg. apply elem_of_cons. right. by apply IH.
Qed.

Lemma dict_get_None k d : dict_get k d = None <-> k ∉ dict_keys d.
Proof.
  induction d as [|[k' v'] d IH]; simpl.
  - split; [intros _; apply not_elem_of_nil|done].
  - unfold str_eqb. rewrite not_elem_of_cons. case_bool_decide as Hk.
    + split; [done|]. intros [Hne _]. by destruct Hne.
    + rewrite IH. split; [by intros ?; split|by intros [_ ?]].
Qed.

Lemma dict_get_is_Some k d : is_Some (dict_get k d) <-> k ∈ dict_keys d.
Proof.
  destruct (dict_get k d) as [v|] eqn:Hg.
  - split; [intros _; by eapply dict_get_Some_elem_of|by eauto].
  - apply dict_get_None in Hg. split; [by intros [? ?]|done].
Qed.

Lemma dict_get_set k k' v d :
  dict_get k' (dict_set k v d) = if decide (k' = k) then Some v else dict_get k' d.
Proof.
  induction d as [|[k0 v0] d IH]; simpl; unfold str_eqb in *.
  - case_bool_decide as H1; destruct (decide (k' = k)); done.
  - case_bool_decide as H0; simpl; unfold str_eqb.
    + subst k0. case_bool_decide as H1; destruct (decide (k' = k)); done.
    + rewrite IH. case_bool_decide as H1; destruct (decide (k' = k)); congruence.
Qed.

Lemma dict_get_del_ne k k' d :
  k' ≠ k -> dict_get k' (dict_del k d) = dict_get k' d.
Proof.
  intros Hne. induction d as [|[k0 v0] d IH]; simpl; [done|].
  unfold str_eqb in *. case_bool_decide as H0; simpl; unfold str_eqb.
  - subst k0. by case_bool_decide.
  - by rewrite IH.
Qed.

Lemma dict_keys_del_subseteq k d : dict_keys (dict_del k d) ⊆ dict_keys d.
Proof.
  induction d as [|[k0 v0] d IH]; simpl; [done|].
  unfold str_eqb. case_bool_decide; simpl.
  - intros x Hx. apply elem_of_cons. by right.
  - intros x. rewrite !elem_of_cons. intros [?|?]; [by left|right; by apply IH].
Qed.

Lemma dict_del_NoDup k d : NoDup (dict_keys d) -> NoDup (dict_keys (dict_del k d)).
Proof.
  induction d as [|[k0 v0] d IH]; simpl; [done|].
  rewrite NoDup_cons. intros [Hk0 Hd].
  unfold str_eqb. case_bool_decide; simpl; [done|].
  apply NoDup_cons. split; [|by apply IH].
  intros Hin. apply Hk0. by apply (dict_keys_del_subseteq k).
Qed.

Lemma dict_get_del k d : NoDup (dict_keys d) -> dict_get k (dict_del k d) = None.
Proof.
  induction d as [|[k0 v0] d IH]; simpl; [done|].
  rewrite NoDup_cons. intros [Hk0 Hd].
  unfold str_eqb. case_bool_decide as H0; simpl.
  - subst. by apply dict_get_None.
  - unfold str_eqb. rewrite bool_decide_eq_false_2 by done. by apply IH.
Qed.

Lemma dict_keys_set k v d :
  dict_keys (dict_set k v d) =
  if decide (k ∈ dict_keys d) then dict_keys d else dict_keys d ++ [k].
Proof.
  induction d as [|[k0 v0] d IH].
  - destruct (decide _) as [Hin|Hin]; [by apply elem_of_nil in Hin|done].
  - cbn [dict_set]. unfold str_eqb. case_bool_decide as H0.
    + subst. clear IH. rewrite decide_True; [reflexivity|].
      apply elem_of_cons; by left.
    + unfold dict_keys in *. cbn [map fst]. rewrite IH.
      destruct (decide (k ∈ map fst d)) as [Hin|Hin];
        destruct (decide (k ∈ k0 :: map fst d)) as [Hin'|Hin']; try done.
      * destruct Hin'. apply elem_of_cons; by right.
      * apply elem_of_cons in Hin' as [?|?]; done.
Qed.

Lemma dict_set_NoDup k v d :
  NoDup (dict_keys d) -> NoDup (dict_keys (dict_set k v d)).
Proof.
  intros Hd. rewrite dict_keys_set. case_decide as Hin; [done|].
  apply NoDup_app. split_and!; [done| |apply NoDup_singleton].
  intros x Hx Hx'. apply list_elem_of_singleton in Hx'. by subst.
Qed.
End DictFacts.

(** ** Running the handlers *)

Ltac run_M :=
  unfold broadcast_participants, participants_get, dict_setdefault,
    sessions_pop, participants_pop, new_dict, read_dict,
    set_participants, set_sessions, logs_append, emit, socketio_emit;
  unfold mbind, mret, M_mbind, M_mret, M_bind, M_ret,
    ask, get, put, send, raise, lift;
  cbn [participants sessions logs objects request_sid fst snd app].

Section Runs.
Context `{Platform}.

Lemma without_session_unbound c w :
  sessions w !! c = None -> without_session c w = w.
Proof.
  intros Hc. destruct w as [p s l o]. unfold without_session. simpl in *.
  by rewrite delete_id.
Qed.

Lemma remove_participant_unbound c rq w :
  sessions w !! c = None -> remove_participant c rq w = (Ret tt, w, []).
Proof.
  intros Hc. unfold remove_participant. run_M. rewrite Hc.
  fold (without_session c w). by rewrite without_session_unbound.
Qed.

Lemma remove_participant_bound c rq w u i :
  sessions w !! c = Some u -> truthy (VStr u) = true ->
  dict_get u (participants w) = Some i ->
  let w' := without_participant u (without_session c w) in
  remove_participant c rq w =
    (Ret tt, w',
     [user_event "user_left" u (fingerprint i) (request_sid rq);
      snapshot_event w']).
Proof.
  intros Hc Hu Hi. unfold remove_participant. run_M.
  rewrite Hc, Hu. cbn. by rewrite Hi.
Qed.

Lemma remove_participant_world c rq w :
  final_world (remove_participant c rq w) = removed c w
  /\ result (remove_participant c rq w) = Ret tt.
Proof.
  unfold removed. destruct (sessions w !! c) as [u|] eqn:Hc.
  - unfold remove_participant. run_M. rewrite Hc.
    destruct (truthy (VStr u)) eqn:Hu; cbn; [|done].
    destruct (dict_get u (participants w)); done.
  - by rewrite remove_participant_unbound.
Qed.

Lemma handle_register_accepted data rq w u k fp :
  register_accepts data rq w u k fp ->
  let c := request_sid rq in
  let w' := with_binding c u (Info k fp c (time_time rq)) (removed c w) in
  handle_register data rq w =
    (Ret tt, w',
     emitted (remove_participant c rq w)
     ++ [register_success_event u fp c w';
         user_event "user_joined" u fp c;
         snapshot_event w']).
Proof.
  intros ([s [Hs ->]] & Hlen & -> & Hk1 & [k' [Hk Hfp]] & Hfree).
  intros c w'. subst c w'.
  unfold handle_register. rewrite Hs, Hk1, Hk. run_M.
  assert (truthy (VStr (strip s)) = true) as ->.
  { simpl. destruct (strip s); [simpl in Hlen; lia|done]. }
  cbn [negb orb].
  assert ((length (strip s) <? 2)%nat = false) as ->
    by (apply Nat.ltb_ge; lia).
  destruct (dict_get (strip s) (participants w)) as [j|] eqn:Hj.
  - rewrite (Hfree j eq_refl). unfold str_eqb.
    rewrite bool_decide_eq_true_2 by done. cbn [negb].
    rewrite Hfp.
    destruct (remove_participant_world (request_sid rq) rq w) as [Hw Hr].
    destruct (remove_participant (request_sid rq) rq w) as [[o w1] ev1].
    cbn in Hw, Hr. subst o w1. reflexivity.
  - rewrite Hfp.
    destruct (remove_participant_world (request_sid rq) rq w) as [Hw Hr].
    destruct (remove_participant (request_sid rq) rq w) as [[o w1] ev1].
    cbn in Hw, Hr. subst o w1. reflexivity.
Qed.

(** Every run of [handle_register] raises before touching anything,
    rejects with a [register_error], or is accepted. *)
Lemma handle_register_cases data rq w :
  (exists e, handle_register data rq w = (Raise e, w, []))
  \/ (exists text,
        handle_register data rq w =
          (Ret tt, w,
           [Emission "register_error" (message text)
                     (ToSid (request_sid rq))]))
  \/ (exists u k fp, register_accepts data rq w u k fp).
Proof.
  destruct (py_or (data_get "username" data) (VStr [])) as [| | | |s| |]
    eqn:Hs;
    try (left; exists AttributeError; unfold handle_register;
         by rewrite Hs).
  destruct (negb (truthy (VStr (strip s)))
            || negb (truthy (data_get "public_key" data))) eqn:Hreq.
  { right; left. eexists. unfold handle_register. rewrite Hs. run_M.
    by rewrite Hreq. }
  destruct (length (strip s) <? 2)%nat eqn:Hlen.
  { right; left. eexists. unfold handle_register. rewrite Hs. run_M.
    by rewrite Hreq, Hlen. }
  destruct (match dict_get (strip s) (participants w) with
            | Some i => negb (str_eqb (sid i) (request_sid rq))
            | None => false
            end) eqn:Hfree.
  { right; left. eexists. unfold handle_register. rewrite Hs. run_M.
    by rewrite Hreq, Hlen, Hfree. }
  destruct (match data_get "public_key" data with
            | VStr k => compute_fingerprint k
            | _ => Raise TypeError
            end) as [fp|e] eqn:Hfp.
  - right; right. exists (strip s), (data_get "public_key" data), fp.
    split; [by exists s|]. split; [by apply Nat.ltb_ge in Hlen|].
    split; [done|]. split.
    { apply orb_false_iff in Hreq as [_ Hreq].
      by apply negb_false_iff in Hreq. }
    split.
    + destruct (data_get "public_key" data); try done. by eexists.
    + intros j Hj. rewrite Hj in Hfree. unfold str_eqb in Hfree.
      apply negb_false_iff in Hfree. by apply bool_decide_eq_true in Hfree.
  - left. exists e. unfold handle_register. rewrite Hs. run_M.
    by rewrite Hreq, Hlen, Hfree, Hfp.
Qed.

End Runs.

(** ** The registry invariant *)

Lemma registry_inv_initial : registry_inv initial_world.
Proof.
  split; [constructor|]. split.
  - intros u Hu. by apply elem_of_nil in Hu.
  - intros c u. simpl. rewrite lookup_empty. split; [done|].
    by intros (i & Hi & _).
Qed.

Lemma registry_inv_truthy w c u :
  registry_inv w -> sessions w !! c = Some u -> truthy (VStr u) = true.
Proof.
  intros (_ & Hlen & Hbij) Hc. apply Hbij in Hc as (i & Hi & _).
  apply dict_get_Some_elem_of, Hlen in Hi.
  destruct u; [simpl in Hi; lia|done].
Qed.

Lemma removed_bound w c u :
  registry_inv w -> sessions w !! c = Some u ->
  removed c w = without_participant u (without_session c w).
Proof.
  intros Hinv Hc. unfold removed.
  by rewrite Hc, (registry_inv_truthy w c u).
Qed.

Lemma removed_session w c : registry_inv w -> sessions (removed c w) !! c = None.
Proof.
  intros Hinv. destruct (sessions w !! c) as [u|] eqn:Hc.
  - rewrite (removed_bound w c u) by done. simpl. apply lookup_delete_eq.
  - unfold removed. by rewrite Hc.
Qed.

Lemma registry_inv_removed w c : registry_inv w -> registry_inv (removed c w).
Proof.
  intros Hinv. destruct (sessions w !! c) as [u|] eqn:Hc;
    [|unfold removed; by rewrite Hc].
  rewrite (removed_bound w c u) by done.
  destruct Hinv as (Hnd & Hlen & Hbij).
  destruct (proj1 (Hbij c u) Hc) as (i & Hi & Hic).
  split; [by apply dict_del_NoDup|]. split.
  - intros u' Hu'. apply Hlen. by apply (dict_keys_del_subseteq u).
  - intros c' u'. simpl. split.
    + intros Hc'. apply lookup_delete_Some in Hc' as [Hne Hc'].
      assert (u' ≠ u) as Hu.
      { intros ->. apply Hbij in Hc' as (i' & Hi' & Hic'). congruence. }
      rewrite dict_get_del_ne by done. by apply Hbij.
    + intros (i' & Hi' & Hic').
      assert (u' ≠ u) as Hu.
      { intros ->. by rewrite dict_get_del in Hi'. }
      rewrite dict_get_del_ne in Hi' by done.
      apply lookup_delete_Some. split.
      * intros <-. apply Hu.
        assert (sessions w !! sid i' = Some u') as Hs by (apply Hbij; eauto).
        congruence.
      * apply Hbij. eauto.
Qed.

Lemma registry_inv_with_binding w c u i :
  registry_inv w -> sessions w !! c = None ->
  dict_get u (participants w) = None ->
  sid i = c -> (2 <= length u)%nat ->
  registry_inv (with_binding c u i w).
Proof.
  intros (Hnd & Hlen & Hbij) Hc Hu Hi Hu2.
  split; [by apply dict_set_NoDup|]. split.
  - simpl. intros u'. rewrite dict_keys_set.
    destruct (decide _); [by apply Hlen|].
    rewrite elem_of_app, list_elem_of_singleton. intros [?| ->]; [by apply Hlen|done].
  - intros c' u'. simpl. rewrite dict_get_set, lookup_insert_Some. split.
    + intros [[<- <-]|[Hne Hc']].
      * rewrite decide_True by done. eauto.
      * destruct (decide (u' = u)) as [->|Hne'].
        -- apply Hbij in Hc' as (i' & Hi' & _). congruence.
        -- by apply Hbij.
    + intros (i' & Hi' & Hic'). destruct (decide (u' = u)) as [->|Hne'].
      * left. split; congruence.
      * right. split; [|apply Hbij; eauto].
        intros <-. assert (sessions w !! sid i' = Some u') as Hs
          by (apply Hbij; eauto). congruence.
Qed.

(** A name the caller may register is free once the caller's previous
    binding is removed. *)
Lemma removed_free w c u :
  registry_inv w ->
  (forall j, dict_get u (participants w) = Some j -> sid j = c) ->
  dict_get u (participants (removed c w)) = None.
Proof.
  intros Hinv Hfree.
  pose proof (registry_inv_removed w c Hinv) as Hinv'.
  pose proof (removed_session w c Hinv) as Hc'.
  destruct (dict_get u (participants (removed c w))) as [j|] eqn:Hj; [|done].
  exfalso.
  assert (sessions (removed c w) !! sid j = Some u) as Hs.
  { destruct Hinv' as (_ & _ & Hbij). apply Hbij. eauto. }
  assert (sid j ≠ c) as Hne by congruence.
  apply Hne, Hfree.
  destruct (sessions w !! c) as [u0|] eqn:Hc.
  - rewrite (removed_bound w c u0) in Hj by done. simpl in Hj.
    destruct (decide (u = u0)) as [->|Hne'].
    + destruct Hinv as (Hnd & _). by rewrite dict_get_del in Hj.
    + by rewrite dict_get_del_ne in Hj.
  - unfold removed in Hj. by rewrite Hc in Hj.
Qed.

(** The state an accepted registration leaves satisfies the invariant. *)
Lemma registry_inv_registered w c u i :
  registry_inv w ->
  (forall j, dict_get u (participants w) = Some j -> sid j = c) ->
  sid i = c -> (2 <= length u)%nat ->
  registry_inv (with_binding c u i (removed c w)).
Proof.
  intros Hinv Hfree Hi Hu2.
  apply registry_inv_with_binding; try done.
  - by apply registry_inv_removed.
  - by apply removed_session.
  - by apply removed_free.
Qed.

(** ** The audit log and the relay *)

Section Relay.
Context `{Platform}.

Lemma store_encrypted_log_run payload rq w d :
  objects w !! payload = Some d ->
  store_encrypted_log payload rq w =
    (Ret tt,
     World (participants w) (sessions w)
           (logs w ++ [log_entry_for rq d])
           (objects w ++ [entry_payload rq d]),
     []).
Proof.
  intros Hd. unfold store_encrypted_log. run_M.
  rewrite Hd. cbn [default].
  rewrite lookup_app_r, Nat.sub_diag by done.
  cbn [lookup list_lookup default]. unfold id.
  unfold log_entry_for, entry_payload.
  destruct (dict_get (py "stored_at") d) as [v|] eqn:Hs;
    cbn [participants sessions logs objects].
  - rewrite lookup_app_r, Nat.sub_diag by done. reflexivity.
  - rewrite insert_app_r_alt, Nat.sub_diag by done. cbn [insert list_insert].
    rewrite lookup_app_r, Nat.sub_diag by done. reflexivity.
Qed.

Lemma send_missing_sender data rq w :
  truthy (data_get "from" data) = false ->
  handle_send_message data rq w =
    (Ret tt, w,
     [delivery_error (py "Missing sender username.") (request_sid rq)]).
Proof. intros Hs. unfold handle_send_message. by rewrite Hs. Qed.

Lemma send_unhashable data rq w :
  truthy (data_get "from" data) = true ->
  hashable (data_get "from" data) = false ->
  handle_send_message data rq w = (Raise TypeError, w, []).
Proof.
  intros Hs Hh. unfold handle_send_message. rewrite Hs. cbn [negb].
  by destruct (data_get "from" data).
Qed.

Lemma send_unregistered data rq w :
  truthy (data_get "from" data) = true ->
  hashable (data_get "from" data) = true ->
  sender_bound rq w (data_get "from" data) = false ->
  handle_send_message data rq w =
    (Ret tt, w,
     [delivery_error (py "Sender not registered.") (request_sid rq)]).
Proof.
  intros Hs Hh Hb. unfold handle_send_message. rewrite Hs. cbn [negb].
  unfold sender_bound, member_of in Hb.
  destruct (data_get "from" data) as [| | | |s| |]; try done.
  run_M. destruct (dict_get s (participants w)) as [m|]; [|done].
  by rewrite Hb.
Qed.

Lemma sender_bound_inv rq w sender :
  sender_bound rq w sender = true ->
  exists s m, sender = VStr s /\ dict_get s (participants w) = Some m
              /\ sid m = request_sid rq.
Proof.
  unfold sender_bound, member_of. destruct sender as [| | | |s| |]; try done.
  destruct (dict_get s (participants w)) as [m|] eqn:Hg; [|done].
  unfold str_eqb. intros Hm%bool_decide_eq_true. by exists s, m.
Qed.

Lemma send_bad_envelopes data rq w :
  truthy (data_get "from" data) = true ->
  sender_bound rq w (data_get "from" data) = true ->
  (forall e, py_or (data_get "envelopes" data) (VDict []) ≠ VDict e) ->
  handle_send_message data rq w = (Raise AttributeError, w, []).
Proof.
  intros Hs Hb He. unfold handle_send_message. rewrite Hs. cbn [negb].
  destruct (sender_bound_inv _ _ _ Hb) as (s & m & -> & Hm & Hc).
  run_M. rewrite Hm, Hc. unfold str_eqb.
  rewrite bool_decide_eq_true_2 by done. cbn [negb].
  destruct (py_or (data_get "envelopes" data) (VDict [])); try done.
  by destruct (He items).
Qed.

Lemma send_incomplete data rq w e :
  truthy (data_get "from" data) = true ->
  sender_bound rq w (data_get "from" data) = true ->
  py_or (data_get "envelopes" data) (VDict []) = VDict e ->
  missing_envelopes w e ≠ ∅ ->
  handle_send_message data rq w =
    (Ret tt, w,
     [delivery_error (missing_envelopes_text w e) (request_sid rq)]).
Proof.
  intros Hs Hb He Hmiss. unfold handle_send_message. rewrite Hs, He.
  cbn [negb].
  destruct (sender_bound_inv _ _ _ Hb) as (s & m & -> & Hm & Hc).
  run_M. rewrite Hm, Hc. unfold str_eqb.
  rewrite bool_decide_eq_true_2 by done. cbn [negb].
  fold (missing_envelopes w e).
  rewrite bool_decide_eq_false_2; [done|].
  intros Hel. by apply elements_empty_inv, leibniz_equiv in Hel.
Qed.

Lemma send_relayed data rq w e :
  truthy (data_get "from" data) = true ->
  sender_bound rq w (data_get "from" data) = true ->
  py_or (data_get "envelopes" data) (VDict []) = VDict e ->
  missing_envelopes w e = ∅ ->
  handle_send_message data rq w =
    (Ret tt, relayed rq data w,
     [Emission "receive_message" (VDict (relay_payload data)) ToAll]).
Proof.
  intros Hs Hb He Hmiss. unfold handle_send_message. rewrite Hs.
  cbn [negb].
  destruct (sender_bound_inv _ _ _ Hb) as (s & m & Hsend & Hm & Hc).
  rewrite Hsend. run_M. rewrite Hm, Hc. unfold str_eqb.
  rewrite bool_decide_eq_true_2 by done. cbn [negb].
  rewrite He. fold (missing_envelopes w e). rewrite Hmiss, elements_empty.
  rewrite bool_decide_eq_true_2 by done. cbn [negb].
  erewrite store_encrypted_log_run
    by (cbn [objects]; apply list_lookup_middle; done).
  cbn [participants sessions logs objects].
  rewrite lookup_app_l by (rewrite length_app; simpl; lia).
  rewrite list_lookup_middle by done. cbn [default].
  unfold relayed, relay_payload. rewrite Hsend, He, <- app_assoc.
  reflexivity.
Qed.

End Relay.

Section Cases.
Context `{Platform}.

(** Every run of [handle_send_message] raises before touching anything,
    rejects with a [delivery_error], or relays. *)
Lemma handle_send_message_cases data rq w :
  (exists e, handle_send_message data rq w = (Raise e, w, []))
  \/ (exists text,
        handle_send_message data rq w =
          (Ret tt, w, [delivery_error text (request_sid rq)]))
  \/ (exists e,
        truthy (data_get "from" data) = true
        /\ sender_bound rq w (data_get "from" data) = true
        /\ py_or (data_get "envelopes" data) (VDict []) = VDict e
        /\ missing_envelopes w e = ∅
        /\ handle_send_message data rq w =
             (Ret tt, relayed rq data w,
              [Emission "receive_message" (VDict (relay_payload data))
                        ToAll])).
Proof.
  destruct (truthy (data_get "from" data)) eqn:Hs;
    [|right; left; eexists; by apply send_missing_sender].
  destruct (hashable (data_get "from" data)) eqn:Hh;
    [|left; eexists; by apply send_unhashable].
  destruct (sender_bound rq w (data_get "from" data)) eqn:Hb;
    [|right; left; eexists; by apply send_unregistered].
  destruct (py_or (data_get "envelopes" data) (VDict [])) as [| | | | | |e]
    eqn:He;
    try (left; eexists; apply send_bad_envelopes; [done..|];
         rewrite He; congruence).
  destruct (decide (missing_envelopes w e = ∅)) as [Hm|Hm].
  - right; right. exists e. split_and!; try done.
    by apply (send_relayed _ _ _ e).
  - right; left. eexists. by apply (send_incomplete _ _ _ e).
Qed.

(** [handle_request_public_key] leaves the world alone. *)
Lemma handle_request_public_key_world data rq w :
  final_world (handle_request_public_key data rq w) = w.
Proof.
  unfold handle_request_public_key.
  destruct (truthy (data_get "username" data)); [|done].
  cbn [negb]. by destruct (data_get "username" data).
Qed.

Lemma registry_inv_ext w w' :
  participants w' = participants w -> sessions w' = sessions w ->
  registry_inv w -> registry_inv w'.
Proof. unfold registry_inv. by intros -> ->. Qed.

Lemma handle_preserves_inv e rq w :
  registry_inv w -> registry_inv (final_world (handle e rq w)).
Proof.
  intros Hinv. destruct e as [data|data|data| |]; cbn [handle].
  - destruct (handle_register_cases data rq w)
      as [[e ->]|[[text ->]|(u & k & fp & Hacc)]]; [done..|].
    rewrite (handle_register_accepted _ _ _ _ _ _ Hacc).
    destruct Hacc as (_ & Hlen & _ & _ & _ & Hfree).
    by apply registry_inv_registered.
  - destruct (handle_send_message_cases data rq w)
      as [[e ->]|[[text ->]|(e & _ & _ & _ & _ & ->)]]; [done..|].
    by apply (registry_inv_ext w).
  - by rewrite handle_request_public_key_world.
  - unfold handle_leave_chat. run_M.
    destruct (remove_participant_world (request_sid rq) rq w) as [Hw _].
    destruct (remove_participant (request_sid rq) rq w) as [[o w1] ev1].
    cbn in Hw |- *. subst w1. by apply registry_inv_removed.
  - unfold handle_disconnect. run_M.
    destruct (remove_participant_world (request_sid rq) rq w) as [Hw _].
    destruct (remove_participant (request_sid rq) rq w) as [[o w1] ev1].
    cbn in Hw |- *. subst w1. by apply registry_inv_removed.
Qed.

Lemma run_preserves_inv trace w :
  registry_inv w -> registry_inv (run w trace).
Proof.
  revert w. induction trace as [|[rq e] trace IH]; intros w Hinv; [done|].
  cbn [run fold_left]. apply IH. by apply handle_preserves_inv.
Qed.

(** C2. After every sequence of events (registrations, departures and
    everything else a client may send), starting from the empty server:
    no username has two records; every binding [connection -> username]
    in [sessions] has its record in [participants] with that connection
    as [sid], and every record is bound back by [sessions]; no two
    connections are bound to one username. *)
Theorem C2_registry_invariant (trace : list (request * event)) :
  let w := run initial_world trace in
  NoDup (dict_keys (participants w))
  /\ (forall c u, sessions w !! c = Some u ->
        exists i, dict_get u (participants w) = Some i /\ sid i = c)
  /\ (forall u i, dict_get u (participants w) = Some i ->
        sessions w !! sid i = Some u)
  /\ (forall c1 c2 u, sessions w !! c1 = Some u ->
        sessions w !! c2 = Some u -> c1 = c2).
Proof.
  intros w.
  destruct (run_preserves_inv trace initial_world registry_inv_initial)
    as (Hnd & _ & Hbij).
  fold w in Hnd, Hbij. split_and!; [done|..].
  - intros c u Hc. by apply Hbij.
  - intros u i Hi. apply Hbij. eauto.
  - intros c1 c2 u H1 H2.
    apply Hbij in H1 as (i1 & Hi1 & <-). apply Hbij in H2 as (i2 & Hi2 & <-).
    congruence.
Qed.

End Cases.

Lemma truthy_VStr (s : str) : s <> [] -> truthy (VStr s) = true.
Proof. by destruct s. Qed.

(** ** Looking up a public key *)

(** C9, as the spec words it, fails: for the unknown name "zed" the reply
    carries the name asked for and a null fingerprint, not
    [{username: null, public_key: null}]. *)
Lemma C9_unknown_name_echoed :
  let data := [(py "username", VStr (py "zed"))] in
  dict_get (py "zed") (participants initial_world) = None
  /\ emitted (handle_request_public_key data (Scenario.conn "s1") initial_world)
     = [Emission "public_key"
          (VDict [(py "username", VStr (py "zed"));
                  (py "public_key", VNone);
                  (py "fingerprint", VNone)])
          (ToSid (py "s1"))]
  /\ emitted (handle_request_public_key data (Scenario.conn "s1") initial_world)
     <> [Emission "public_key"
           (VDict [(py "username", VNone); (py "public_key", VNone)])
           (ToSid (py "s1"))].
Proof. split; [reflexivity|]. split; [reflexivity|]. vm_compute. discriminate. Qed.

(** C9, amended. The reply goes to the asking connection only.  When no
    username is given (absent, null or empty) it is
    [{username: null, public_key: null}]; for a name without a record it
    is [{username: name, public_key: null, fingerprint: null}]; for a
    registered name it is that user's name, public key and fingerprint. *)
Theorem C9_request_public_key (data : pydict value) (rq : request) (w : world) :
  let reply := emitted (handle_request_public_key data rq w) in
  let to_caller payload :=
    [Emission "public_key" (VDict payload) (ToSid (request_sid rq))] in
  (truthy (data_get "username" data) = false ->
     reply = to_caller [(py "username", VNone); (py "public_key", VNone)])
  /\ (forall u, data_get "username" data = VStr u -> u <> [] ->
        dict_get u (participants w) = None ->
        reply = to_caller [(py "username", VStr u);
                           (py "public_key", VNone);
                           (py "fingerprint", VNone)])
  /\ (forall u m, data_get "username" data = VStr u -> u <> [] ->
        dict_get u (participants w) = Some m ->
        reply = to_caller [(py "username", VStr u);
                           (py "public_key", public_key m);
                           (py "fingerprint", VStr (fingerprint m))]).
Proof.
  intros reply to_caller. subst reply to_caller.
  unfold handle_request_public_key. split_and!.
  - by intros ->.
  - intros u Hu Hne Hg. rewrite Hu, (truthy_VStr u Hne). run_M.
    cbn [negb emitted snd]. by rewrite Hg.
  - intros u m Hu Hne Hg. rewrite Hu, (truthy_VStr u Hne). run_M.
    cbn [negb emitted snd]. by rewrite Hg.
Qed.

Lemma C9_request_public_key_witness :
  emitted (handle_request_public_key [] (Scenario.conn "s1")
             Scenario.alice_and_bob)
  = [Emission "public_key"
       (VDict [(py "username", VNone); (py "public_key", VNone)])
       (ToSid (py "s1"))]
  /\ emitted (handle_request_public_key [(py "username", VStr (py "zed"))]
                (Scenario.conn "s1") Scenario.alice_and_bob)
     = [Emission "public_key"
          (VDict [(py "username", VStr (py "zed"));
                  (py "public_key", VNone);
                  (py "fingerprint", VNone)])
          (ToSid (py "s1"))]
  /\ exists m,
       dict_get (py "bob") (participants Scenario.alice_and_bob) = Some m
       /\ public_key m = VStr (py "Yg==")
       /\ emitted (handle_request_public_key [(py "username", VStr (py "bob"))]
                     (Scenario.conn "s1") Scenario.alice_and_bob)
          = [Emission "public_key"
               (VDict [(py "username", VStr (py "bob"));
                       (py "public_key", public_key m);
                       (py "fingerprint", VStr (fingerprint m))])
               (ToSid (py "s1"))].
Proof.
  split_and!.
  - apply (C9_request_public_key [] (Scenario.conn "s1")
             Scenario.alice_and_bob). reflexivity.
  - apply (C9_request_public_key [(py "username", VStr (py "zed"))]
             (Scenario.conn "s1") Scenario.alice_and_bob) with (u := py "zed").
    + reflexivity.
    + discriminate.
    + vm_compute. reflexivity.
  - eexists. split; [vm_compute; reflexivity|]. split; [reflexivity|].
    apply (C9_request_public_key [(py "username", VStr (py "bob"))]
             (Scenario.conn "s1") Scenario.alice_and_bob) with (u := py "bob").
    + reflexivity.
    + discriminate.
    + vm_compute. reflexivity.
Defined.

(** ** The relay: who may send, and envelope completeness *)

Section RelayTheorems.
Context `{Platform}.

Lemma sender_bound_str rq w s :
  sender_bound rq w (VStr s) = false <->
  dict_get s (participants w) = None
  \/ exists m, dict_get s (participants w) = Some m /\ sid m <> request_sid rq.
Proof.
  unfold sender_bound, member_of, str_eqb.
  destruct (dict_get s (participants w)) as [m|]; [|by split; [left|]].
  rewrite bool_decide_eq_false. split.
  - intros Hne. right. by exists m.
  - by intros [?|(m' & [= <-] & Hne)].
Qed.

Lemma missing_envelopes_text_head w e :
  exists t, missing_envelopes_text w e = 77 :: t.
Proof. eexists. reflexivity. Qed.



(** C4. For a message that names a sender [s], the relay answers "Sender
    not registered." exactly when [s] has no record or its record is
    bound to another connection than the caller's.  That rejection is then
    all the handler does: it goes to the caller alone, nothing is
    broadcast, and the state (the log included) is unchanged.  So, on any
    reachable state, a connection not bound to [s] cannot relay as [s]. *)
Theorem C4_sender_not_registered data rq w s :
  data_get "from" data = VStr s -> s <> [] ->
  let r := handle_send_message data rq w in
  let rejection :=
    delivery_error (py "Sender not registered.") (request_sid rq) in
  (rejection ∈ emitted r <->
     dict_get s (participants w) = None
     \/ exists m, dict_get s (participants w) = Some m
                  /\ sid m <> request_sid rq)
  /\ (rejection ∈ emitted r -> r = (Ret tt, w, [rejection]))
  /\ (registry_inv w -> sessions w !! request_sid rq <> Some s ->
      r = (Ret tt, w, [rejection])).
Proof.
  intros Hfrom Hs r rejection.
  assert (truthy (data_get "from" data) = true) as Ht
    by (rewrite Hfrom; by apply truthy_VStr).
  assert (sender_bound rq w (VStr s) = false -> r = (Ret tt, w, [rejection]))
    as Hrej.
  { intros Hb. apply send_unregistered; [done|by rewrite Hfrom..]. }
  assert (rejection ∈ emitted r -> sender_bound rq w (VStr s) = false) as Hinv.
  { destruct (sender_bound rq w (VStr s)) eqn:Hb; [|done].
    rewrite <- Hfrom in Hb. subst r. intros Hin. exfalso.
    destruct (py_or (data_get "envelopes" data) (VDict [])) as [| | | | | |e]
      eqn:He;
      try (rewrite send_bad_envelopes in Hin;
           [by apply elem_of_nil in Hin|done..|rewrite He; congruence]).
    destruct (decide (missing_envelopes w e = ∅)) as [Hm|Hm].
    - rewrite (send_relayed _ _ _ e) in Hin by done.
      by apply list_elem_of_singleton in Hin.
    - rewrite (send_incomplete _ _ _ e) in Hin by done.
      apply list_elem_of_singleton in Hin.
      destruct (missing_envelopes_text_head w e) as [t Ht'].
      unfold rejection, delivery_error in Hin. rewrite Ht' in Hin.
      by injection Hin. }
  split_and!.
  - rewrite <- sender_bound_str. split; [done|].
    intros Hb. rewrite (Hrej Hb). by apply list_elem_of_singleton.
  - intros Hin. by apply Hrej, Hinv.
  - intros (_ & _ & Hbij) Hc. apply Hrej, sender_bound_str.
    destruct (dict_get s (participants w)) as [m|] eqn:Hm; [|by left].
    right. exists m. split; [done|]. intros Hsid. apply Hc, Hbij. eauto.
Qed.

End RelayTheorems.

Lemma C4_sender_not_registered_witness :
  let data := Scenario.letter "alice" ["alice"; "bob"]%string in
  handle_send_message (H := Demo.platform) data (Scenario.conn "s2")
    Scenario.alice_and_bob
  = (Ret tt, Scenario.alice_and_bob,
     [delivery_error (py "Sender not registered.") (py "s2")]).
Proof.
  intros data.
  destruct (C4_sender_not_registered (H := Demo.platform) data
              (Scenario.conn "s2") Scenario.alice_and_bob (py "alice"))
    as (Hiff & Himp & _).
  - reflexivity.
  - discriminate.
  - apply Himp, Hiff. right. eexists.
    split; [vm_compute; reflexivity|]. vm_compute. discriminate.
Defined.


Section Completeness.
Context `{Platform}.


End Completeness.


(** ** Presence: joining, leaving, renaming *)

Section Presence.
Context `{Platform}.

Lemma listed_snapshot u w :
  listed u (participant_snapshot w) <-> u ∈ dict_keys (participants w).
Proof.
  unfold listed, participant_snapshot, dict_keys. split.
  - intros (row & Hrow & Hu).
    apply list_elem_of_In, in_map_iff in Hrow as ([u' i] & <- & Hin).
    injection Hu as <-.
    apply list_elem_of_In in Hin. rewrite sorted_by_perm in Hin.
    apply list_elem_of_In, in_map_iff. exists (u', i).
    split; [done|]. by apply list_elem_of_In.
  - intros Hu. apply list_elem_of_In, in_map_iff in Hu as ([u' i] & <- & Hin).
    exists (VDict [(py "username", VStr u');
                   (py "fingerprint", VStr (fingerprint i));
                   (py "public_key", public_key i)]).
    split; [|reflexivity].
    apply list_elem_of_In, in_map_iff. exists (u', i). split; [done|].
    apply list_elem_of_In. rewrite sorted_by_perm. by apply list_elem_of_In.
Qed.

Lemma not_in_keys {V} (k : str) (d : pydict V) :
  dict_get k d = None -> k ∉ dict_keys d.
Proof. apply dict_get_None. Qed.

(** C5. Let the calling connection be registered as [a], and let it
    register a different name [b], the request passing every check.  The
    handler then emits, in this order: the [user_left] event for [a], a
    snapshot of the registry without [a] and without [b], the
    [register_success] reply, the [user_joined] event for [b], and a
    snapshot with [b] and without [a].  The state between the two halves
    (after [remove_participant], before the new record is stored) holds
    neither name and no binding for the connection; the final state holds
    [b], bound to the connection, and not [a]. *)
Theorem C5_rename_leaves_first data rq w a b k fp :
  registry_inv w ->
  sessions w !! request_sid rq = Some a -> a <> b ->
  register_accepts data rq w b k fp ->
  let c := request_sid rq in
  let mid := final_world (remove_participant c rq w) in
  let w' := with_binding c b (Info k fp c (time_time rq)) mid in
  exists ia,
    dict_get a (participants w) = Some ia
    /\ handle_register data rq w =
         (Ret tt, w',
          [user_event "user_left" a (fingerprint ia) c;
           snapshot_event mid;
           register_success_event b fp c w';
           user_event "user_joined" b fp c;
           snapshot_event w'])
    /\ ((a ∉ dict_keys (participants mid)) /\ (b ∉ dict_keys (participants mid))
        /\ sessions mid !! c = None)
    /\ (~ listed a (participant_snapshot mid)
        /\ ~ listed b (participant_snapshot mid))
    /\ ((a ∉ dict_keys (participants w')) /\ (b ∈ dict_keys (participants w'))
        /\ sessions w' !! c = Some b)
    /\ (~ listed a (participant_snapshot w')
        /\ listed b (participant_snapshot w')).
Proof.
  intros Hinv Hc Hab Hacc c mid w'.
  pose proof Hinv as (Hnd & _ & Hbij).
  destruct (proj1 (Hbij c a) Hc) as (ia & Hia & Hsid).
  pose proof (registry_inv_truthy w c a Hinv Hc) as Ha.
  pose proof (remove_participant_bound c rq w a ia Hc Ha Hia) as Hrm.
  cbv zeta in Hrm.
  assert (mid = removed c w) as Hmid
    by (subst mid; apply remove_participant_world).
  assert (mid = without_participant a (without_session c w)) as Hmid'
    by (by rewrite Hmid, (removed_bound w c a)).
  assert (dict_get a (participants mid) = None) as Ha_mid
    by (rewrite Hmid'; by apply dict_get_del).
  assert (dict_get b (participants mid) = None) as Hb_mid.
  { rewrite Hmid. apply removed_free; [done|]. by destruct Hacc as (_&_&_&_&_&?). }
  assert (a ∉ dict_keys (participants w')) as Ha_fin.
  { apply not_in_keys. subst w'. cbn [with_binding participants].
    rewrite dict_get_set. by rewrite decide_False. }
  assert (b ∈ dict_keys (participants w')) as Hb_fin.
  { apply dict_get_is_Some. subst w'. cbn [with_binding participants].
    rewrite dict_get_set. by rewrite decide_True. }
  exists ia. split_and!; try done.
  - rewrite (handle_register_accepted _ _ _ _ _ _ Hacc).
    unfold w'. rewrite Hmid. unfold c in *. rewrite Hrm.
    cbn [emitted snd app]. rewrite (removed_bound w _ a) by done.
    reflexivity.
  - by apply not_in_keys.
  - by apply not_in_keys.
  - rewrite Hmid. by apply removed_session.
  - rewrite listed_snapshot. by apply not_in_keys.
  - rewrite listed_snapshot. by apply not_in_keys.
  - subst w'. cbn [with_binding sessions]. apply lookup_insert_eq.
  - by rewrite listed_snapshot.
  - by rewrite listed_snapshot.
Qed.

End Presence.

Lemma alice_and_bob_inv : registry_inv Scenario.alice_and_bob.
Proof.
  apply (run_preserves_inv (H := Demo.platform)), registry_inv_initial.
Qed.

Lemma C5_rename_leaves_first_witness :
  let rq := Scenario.conn "s1" in
  let w := Scenario.alice_and_bob in
  let fp := py "2e:7d:2c:03:a9:50:7a:e2:65:ec:f5:b5:35:68:85:a5:33:93:a2:02:9d:24:13:94:99:72:65:a1:a2:5a:ef:c6" in
  let mid := final_world (remove_participant (H := Demo.platform) (py "s1") rq w) in
  exists ia w',
    handle_register (H := Demo.platform)
      (Scenario.registration "carol" "Yw==") rq w
    = (Ret tt, w',
       [user_event "user_left" (py "alice") (fingerprint ia) (py "s1");
        snapshot_event (H := Demo.platform) mid;
        register_success_event (H := Demo.platform) (py "carol") fp (py "s1") w';
        user_event "user_joined" (py "carol") fp (py "s1");
        snapshot_event (H := Demo.platform) w'])
    /\ (py "alice" ∉ dict_keys (participants w'))
    /\ (py "carol" ∈ dict_keys (participants w')).
Proof.
  intros rq w fp mid.
  destruct (C5_rename_leaves_first (H := Demo.platform)
              (Scenario.registration "carol" "Yw==") rq w
              (py "alice") (py "carol") (VStr (py "Yw==")) fp)
    as (ia & _ & Hrun & _ & _ & (Ha & Hc & _) & _).
  - exact alice_and_bob_inv.
  - vm_compute. reflexivity.
  - discriminate.
  - split; [exists (py "carol"); split; reflexivity|].
    split; [vm_compute; lia|]. split; [reflexivity|]. split; [reflexivity|].
    split; [exists (py "Yw=="); split; [reflexivity|vm_compute; reflexivity]|].
    intros j Hj. vm_compute in Hj. discriminate.
  - exists ia. eexists. split; [exact Hrun|]. split; [exact Ha|exact Hc].
Defined.

(** C8, as the spec words it, fails: when alice leaves over her
    connection s1 (which stays connected), the [user_left] event is sent
    to every connection except s1; on departure too the acting connection
    is left out. *)
Lemma C8_leave_event_skips_actor :
  exists left_event participants_event,
    emitted (handle_leave_chat (H := Demo.platform) (Scenario.conn "s1")
               Scenario.alice_and_bob)
    = [left_event; participants_event]
    /\ ev_name left_event = "user_left"%string
    /\ ev_to left_event = ToAllExcept (py "s1")
    /\ delivered_to (py "s1") left_event = false
    /\ delivered_to (py "s2") left_event = true.
Proof.
  eexists. eexists. split; [vm_compute; reflexivity|].
  split; [reflexivity|]. split; [reflexivity|].
  split; vm_compute; reflexivity.
Qed.

Section PresenceEvents.
Context `{Platform}.

(** C8, amended. On any reachable state: when a bound connection leaves
    or disconnects, the handler emits the [user_left] event
    [{username, fingerprint}] and then the snapshot of the registry
    without that user; when a registration is accepted, the handler
    emits whatever the implicit leave emits, then the [register_success]
    reply to the caller, then the [user_joined] event and then the
    snapshot of the new registry.  The point event always comes before
    its snapshot.  Every snapshot goes to all connections; every point
    event, joined or left, goes to all connections except the acting
    one. *)
Theorem C8_presence_events data rq w :
  registry_inv w ->
  let c := request_sid rq in
  (forall u, sessions w !! c = Some u ->
     exists i,
       dict_get u (participants w) = Some i
       /\ handle_leave_chat rq w =
            (Ret tt, removed c w,
             [user_event "user_left" u (fingerprint i) c;
              snapshot_event (removed c w)])
       /\ handle_disconnect rq w = handle_leave_chat rq w)
  /\ (forall u k fp, register_accepts data rq w u k fp ->
        exists w',
          handle_register data rq w =
            (Ret tt, w',
             emitted (remove_participant c rq w)
             ++ [register_success_event u fp c w';
                 user_event "user_joined" u fp c;
                 snapshot_event w']))
  /\ (forall name u fp c',
        delivered_to c' (user_event name u fp c) = true <-> c' <> c)
  /\ (forall w' c', delivered_to c' (snapshot_event w') = true).
Proof.
  intros Hinv c. split_and!.
  - intros u Hc. pose proof Hinv as (_ & _ & Hbij).
    destruct (proj1 (Hbij c u) Hc) as (i & Hi & _).
    exists i. split; [done|]. split; [|done].
    unfold handle_leave_chat. run_M. fold c.
    rewrite (remove_participant_bound c rq w u i Hc
               (registry_inv_truthy w c u Hinv Hc) Hi).
    rewrite (removed_bound w c u) by done. reflexivity.
  - intros u k fp Hacc. eexists. by apply handle_register_accepted.
  - intros name u fp c'. unfold delivered_to, user_event, str_eqb. simpl.
    rewrite negb_true_iff. apply bool_decide_eq_false.
  - done.
Qed.

End PresenceEvents.

Lemma C8_presence_events_witness :
  handle_leave_chat (H := Demo.platform) (Scenario.conn "s2")
    Scenario.alice_and_bob
  = (Ret tt, removed (py "s2") Scenario.alice_and_bob,
     [user_event "user_left" (py "bob")
        (py "3e:23:e8:16:00:39:59:4a:33:89:4f:65:64:e1:b1:34:8b:bd:7a:00:88:d4:2c:4a:cb:73:ee:ae:d5:9c:00:9d")
        (py "s2");
      snapshot_event (H := Demo.platform)
        (removed (py "s2") Scenario.alice_and_bob)]).
Proof.
  destruct (C8_presence_events (H := Demo.platform) []
              (Scenario.conn "s2") Scenario.alice_and_bob alice_and_bob_inv)
    as (Hleave & _).
  destruct (Hleave (py "bob")) as (i & Hi & Hrun & _);
    [vm_compute; reflexivity|].
  rewrite Hrun. vm_compute in Hi. injection Hi as <-. reflexivity.
Defined.

(** ** Rejections *)

Section Rejections.
Context `{Platform}.

(** A registration that is not accepted changes nothing, and what it
    emits, if anything, goes to the caller alone. *)
Lemma register_failure_frame data rq w :
  let r := handle_register data rq w in
  (exists u k fp, register_accepts data rq w u k fp)
  \/ (final_world r = w
      /\ Forall (fun ev => ev_name ev = "register_error"%string
                           /\ ev_to ev = ToSid (request_sid rq)) (emitted r)).
Proof.
  intros r. subst r.
  destruct (handle_register_cases data rq w) as [[e ->]|[[text ->]|Hacc]];
    [right|right|by left]; (split; [done|]).
  - constructor.
  - by repeat constructor.
Qed.

(** A message that is not relayed changes nothing (no log entry, no
    broadcast), and what it emits, if anything, goes to the caller
    alone. *)
Lemma relay_failure_frame data rq w :
  let r := handle_send_message data rq w in
  r = (Ret tt, relayed rq data w,
       [Emission "receive_message" (VDict (relay_payload data)) ToAll])
  \/ (final_world r = w
      /\ Forall (fun ev => ev_name ev = "delivery_error"%string
                           /\ ev_to ev = ToSid (request_sid rq)) (emitted r)).
Proof.
  intros r. subst r.
  destruct (handle_send_message_cases data rq w)
    as [[e ->]|[[text ->]|(e & _ & _ & _ & _ & ->)]];
    [right|right|by left]; (split; [done|]).
  - constructor.
  - by repeat constructor.
Qed.

End Rejections.

(** C3, where the code departs from it: a registration whose public key
    is not decodable ("abc" has three data characters) makes
    [compute_fingerprint] raise inside the handler.  The handler raises
    in turn: the state is unchanged, but nothing is emitted, so the
    calling connection gets no [register_error]. *)
Theorem C3_undecodable_key_not_reported `{Platform} (rq : request) :
  compute_fingerprint (py "abc") = Raise BinasciiError
  /\ handle_register (Scenario.registration "alice" "abc") rq initial_world
     = (Raise BinasciiError, initial_world, []).
Proof. split; reflexivity. Qed.

(** ** The audit log leaves the broadcast payload alone *)

Section Frame.
Context `{Platform}.

(** [store_encrypted_log] changes no dict object that existed before the
    call, its argument included: it adds one object, the stamped copy. *)
Lemma store_encrypted_log_frame payload rq w d :
  objects w !! payload = Some d ->
  forall r d', objects w !! r = Some d' ->
    objects (final_world (store_encrypted_log payload rq w)) !! r = Some d'.
Proof.
  intros Hd r d' Hr. rewrite (store_encrypted_log_run payload rq w d Hd).
  cbn [final_world fst snd objects]. by apply lookup_app_l_Some.
Qed.

Lemma relayed_envelopes_truthy rq w data e :
  sender_bound rq w (data_get "from" data) = true ->
  py_or (data_get "envelopes" data) (VDict []) = VDict e ->
  missing_envelopes w e = ∅ ->
  py_or (data_get "envelopes" data) (VDict []) = data_get "envelopes" data.
Proof.
  intros Hb He Hm.
  destruct (sender_bound_inv _ _ _ Hb) as (s & m & _ & Hs & _).
  assert (s ∈ dict_keys e) as Hin.
  { apply dict_get_Some_elem_of in Hs.
    destruct (decide (s ∈ dict_keys e)) as [|Hn]; [done|].
    assert (s ∈ missing_envelopes w e) as Hmiss.
    { unfold missing_envelopes.
      by rewrite elem_of_difference, !elem_of_list_to_set. }
    rewrite Hm in Hmiss. by apply elem_of_empty in Hmiss. }
  unfold py_or in *.
  destruct (truthy (data_get "envelopes" data)); [done|].
  injection He as <-. by apply elem_of_nil in Hin.
Qed.

(** C10. Whenever [handle_send_message] emits a [receive_message] event,
    its payload has exactly the keys from, ciphertext, iv, timestamp and
    envelopes, in that order, each with the value the client sent (None
    where the client sent none); it has no [stored_at] key, and it goes
    to all connections.  The log entry appended by the same call is made
    from a separate dict object, the copy that does carry [stored_at];
    after the call the payload object and the stamped copy sit side by
    side in the object store.  In general [store_encrypted_log] leaves
    the dict it is given as it found it. *)
Theorem C10_broadcast_payload_untouched data rq w ev :
  ev ∈ emitted (handle_send_message data rq w) ->
  ev_name ev = "receive_message"%string ->
  let payload :=
    [(py "from", data_get "from" data);
     (py "ciphertext", data_get "ciphertext" data);
     (py "iv", data_get "iv" data);
     (py "timestamp", data_get "timestamp" data);
     (py "envelopes", data_get "envelopes" data)] in
  let w' := final_world (handle_send_message data rq w) in
  ev_payload ev = VDict payload
  /\ ev_to ev = ToAll
  /\ dict_get (py "stored_at") payload = None
  /\ logs w' = logs w ++ [log_entry_for rq payload]
  /\ dict_get (py "stored_at") (entry_payload rq payload)
     = Some (VStr (time_strftime_gmtime rq))
  /\ objects w' = objects w ++ [payload; entry_payload rq payload]
  /\ (forall w0 p d, objects w0 !! p = Some d ->
        objects (final_world (store_encrypted_log p rq w0)) !! p = Some d).
Proof.
  intros Hev Hname payload w'. subst w'.
  destruct (handle_send_message_cases data rq w)
    as [[e Hr]|[[text Hr]|(e & Ht & Hb & He & Hm & Hr)]];
    rewrite Hr in Hev |- *; cbn [emitted snd] in Hev.
  - by apply elem_of_nil in Hev.
  - apply list_elem_of_singleton in Hev. subst ev. discriminate Hname.
  - apply list_elem_of_singleton in Hev. subst ev.
    assert (relay_payload data = payload) as Hp.
    { unfold relay_payload. by rewrite (relayed_envelopes_truthy rq w data e). }
    cbn [final_world fst snd ev_payload ev_to]. unfold relayed.
    cbn [logs objects]. rewrite Hp. split_and!; try reflexivity.
    intros w0 p d Hd. by apply (store_encrypted_log_frame p rq w0 d).
Qed.

End Frame.

Lemma C10_broadcast_payload_untouched_witness :
  let data := Scenario.letter "alice" ["alice"; "bob"]%string in
  let r := handle_send_message (H := Demo.platform) data
             (Scenario.conn "s1") Scenario.alice_and_bob in
  emitted r = [Emission "receive_message" (VDict data) ToAll]
  /\ logs (final_world r) = [log_entry_for (H := Demo.platform) (Scenario.conn "s1") data]
  /\ objects (final_world r)
     = [data; data ++ [(py "stored_at", VStr (py "2024-01-01T00:00:00Z"))]].
Proof.
  intros data r.
  assert (emitted r = [Emission "receive_message" (VDict data) ToAll]) as Hem
    by (vm_compute; reflexivity).
  destruct (C10_broadcast_payload_untouched (H := Demo.platform) data
              (Scenario.conn "s1") Scenario.alice_and_bob
              (Emission "receive_message" (VDict data) ToAll))
    as (_ & _ & _ & Hlogs & _ & Hobj & _).
  - fold r. rewrite Hem. apply list_elem_of_singleton. reflexivity.
  - reflexivity.
  - split; [exact Hem|]. split; [exact Hlogs|exact Hobj].
Defined.

(** ** base64 *)

Module Base64Facts.
Import Base64.

Lemma is_alphabet_spec c :
  is_alphabet c = true ->
  (c =? BASE64_PAD) = false /\ (64 <=? table_a2b_base64 c) = false
  /\ (c <? 128) = true.
Proof.
  unfold is_alphabet, BASE64_PAD. intros Hc. split_and!.
  - apply N.eqb_neq. intros ->. by vm_compute in Hc.
  - apply N.leb_gt. by apply N.ltb_lt.
  - apply N.ltb_lt. apply N.ltb_lt in Hc. revert Hc.
    unfold table_a2b_base64.
    destruct ((65 <=? c) && (c <=? 90)) eqn:E1;
      [apply andb_true_iff in E1 as [_ ?%N.leb_le]; lia|].
    destruct ((97 <=? c) && (c <=? 122)) eqn:E2;
      [apply andb_true_iff in E2 as [_ ?%N.leb_le]; lia|].
    destruct ((48 <=? c) && (c <=? 57)) eqn:E3;
      [apply andb_true_iff in E3 as [_ ?%N.leb_le]; lia|].
    destruct (c =? 43) eqn:E4; [apply N.eqb_eq in E4; lia|].
    destruct (c =? 47) eqn:E5; [apply N.eqb_eq in E5; lia|].
    lia.
Qed.

(** One turn of the decoding loop on an alphabet character, by position
    in the group of four. *)
Section Steps.
Context (c : N) (rest : list N) (l p : N) (out : bytes).
Context (Hc : is_alphabet c = true).

Lemma a2b_step0 :
  a2b_loop (c :: rest) 0 l p out = a2b_loop rest 1 (table_a2b_base64 c) 0 out.
Proof.
  destruct (is_alphabet_spec c Hc) as (H1 & H2 & _).
  cbn [a2b_loop]. by rewrite H1, H2.
Qed.

Lemma a2b_step1 :
  a2b_loop (c :: rest) 1 l p out =
  a2b_loop rest 2 (N.land (table_a2b_base64 c) 0x0f) 0
    (byte_of_N (N.lor (N.shiftl l 2) (N.shiftr (table_a2b_base64 c) 4)) :: out).
Proof.
  destruct (is_alphabet_spec c Hc) as (H1 & H2 & _).
  cbn [a2b_loop]. by rewrite H1, H2.
Qed.

Lemma a2b_step2 :
  a2b_loop (c :: rest) 2 l p out =
  a2b_loop rest 3 (N.land (table_a2b_base64 c) 0x03) 0
    (byte_of_N (N.lor (N.shiftl l 4) (N.shiftr (table_a2b_base64 c) 2)) :: out).
Proof.
  destruct (is_alphabet_spec c Hc) as (H1 & H2 & _).
  cbn [a2b_loop]. by rewrite H1, H2.
Qed.

Lemma a2b_step3 :
  a2b_loop (c :: rest) 3 l p out =
  a2b_loop rest 0 0 0
    (byte_of_N (N.lor (N.shiftl l 6) (table_a2b_base64 c)) :: out).
Proof.
  destruct (is_alphabet_spec c Hc) as (H1 & H2 & _).
  cbn [a2b_loop]. by rewrite H1, H2.
Qed.
End Steps.

(** Well-formed base64 is ASCII and is accepted by the decoder. *)
Lemma valid_base64_decodes (n : nat) :
  forall s, (length s <= n)%nat -> valid_base64 s = true ->
    forallb (fun c => c <? 128) s = true
    /\ forall out, exists b, a2b_loop s 0 0 0 out = Ret b.
Proof.
  induction n as [|n IH]; intros s Hlen Hv.
  { destruct s; [|simpl in Hlen; lia]. split; [done|]. intros out. by eexists. }
  destruct s as [|a [|b [|c [|d rest]]]]; try done.
  { split; [done|]. intros out. by eexists. }
  assert (is_alphabet a = true /\ is_alphabet b = true) as [Ha Hb].
  { destruct rest; simpl in Hv; repeat (apply andb_true_iff in Hv as [Hv ?]);
      by split. }
  destruct (is_alphabet_spec a Ha) as (_ & _ & Ha').
  destruct (is_alphabet_spec b Hb) as (_ & _ & Hb').
  destruct rest as [|x rest].
  - (* the last group *)
    simpl in Hv. apply andb_true_iff in Hv as [_ Hv].
    apply orb_true_iff in Hv as [Hv|Hv]; apply andb_true_iff in Hv as [Hc Hd].
    + destruct (is_alphabet_spec c Hc) as (_ & _ & Hc').
      apply orb_true_iff in Hd as [Hd|Hd].
      * destruct (is_alphabet_spec d Hd) as (_ & _ & Hd').
        split; [simpl; by rewrite Ha', Hb', Hc', Hd'|].
        intros out. rewrite a2b_step0, a2b_step1, a2b_step2, a2b_step3 by done.
        by eexists.
      * apply N.eqb_eq in Hd as ->.
        split; [simpl; by rewrite Ha', Hb', Hc'|].
        intros out. rewrite a2b_step0, a2b_step1, a2b_step2 by done.
        by eexists.
    + apply N.eqb_eq in Hc as ->. apply N.eqb_eq in Hd as ->.
      split; [simpl; by rewrite Ha', Hb'|].
      intros out. rewrite a2b_step0, a2b_step1 by done. by eexists.
  - (* a full group followed by more *)
    change (valid_base64 (a :: b :: c :: d :: x :: rest))
      with (is_alphabet a && is_alphabet b && is_alphabet c && is_alphabet d
            && valid_base64 (x :: rest)) in Hv.
    repeat (apply andb_true_iff in Hv as [Hv ?]).
    destruct (is_alphabet_spec c) as (_ & _ & Hc'); [done|].
    destruct (is_alphabet_spec d) as (_ & _ & Hd'); [done|].
    destruct (IH (x :: rest)) as [Hascii Hdec]; [simpl in *; lia|done|].
    split.
    + change (forallb (fun c => c <? 128) (a :: b :: c :: d :: x :: rest))
        with ((a <? 128) && ((b <? 128) && ((c <? 128) && ((d <? 128)
              && forallb (fun c => c <? 128) (x :: rest))))).
      by rewrite Ha', Hb', Hc', Hd', Hascii.
    + intros out. rewrite a2b_step0, a2b_step1, a2b_step2, a2b_step3 by done.
      apply Hdec.
Qed.

Lemma valid_base64_b64decode s :
  valid_base64 s = true -> exists b, b64decode s = Ret b.
Proof.
  intros Hv.
  destruct (valid_base64_decodes (length s) s) as [Hascii Hdec]; [done..|].
  unfold b64decode, a2b_base64. rewrite Hascii. apply Hdec.
Qed.

(** *** Encoding then decoding *)

(** Facts about six-bit values and octets are checked on all of them. *)
Lemma forallb_below (f : N -> bool) (n : nat) :
  forallb f (map N.of_nat (seq 0 n)) = true ->
  forall x, x < N.of_nat n -> f x = true.
Proof.
  intros Hall x Hx. rewrite forallb_forall in Hall. apply Hall.
  apply in_map_iff. exists (N.to_nat x). split; [lia|].
  apply in_seq. lia.
Qed.

Lemma forallb_below2 (f : N -> N -> bool) (n : nat) :
  forallb (fun x => forallb (f x) (map N.of_nat (seq 0 n)))
          (map N.of_nat (seq 0 n)) = true ->
  forall x y, x < N.of_nat n -> y < N.of_nat n -> f x y = true.
Proof.
  intros Hall x y Hx Hy.
  apply (forallb_below (f x) n); [|done].
  by apply (forallb_below (fun x => forallb (f x) _) n).
Qed.

Lemma to_N_lt (b : byte) : Byte.to_N b < N.of_nat 256.
Proof. pose proof (Byte.to_N_bounded b). lia. Qed.

Lemma byte_of_N_to_N (n : N) (b : byte) :
  (n mod 256 =? Byte.to_N b) = true -> byte_of_N n = b.
Proof.
  intros Hn%N.eqb_eq. unfold byte_of_N. by rewrite Hn, Byte.of_to_N.
Qed.

Lemma sextet_char v :
  v < 64 ->
  is_alphabet (table_b2a_base64 v) = true
  /\ table_a2b_base64 (table_b2a_base64 v) = v.
Proof.
  intros Hv.
  pose proof (forallb_below
    (fun v => is_alphabet (table_b2a_base64 v)
              && (table_a2b_base64 (table_b2a_base64 v) =? v)) 64) as Hall.
  specialize (Hall ltac:(vm_compute; reflexivity) v Hv).
  apply andb_true_iff in Hall as [? ?%N.eqb_eq]. done.
Qed.

Lemma group_xy x y :
  x < N.of_nat 256 -> y < N.of_nat 256 -> group_xy_ok x y = true.
Proof. apply (forallb_below2 group_xy_ok 256). vm_compute. reflexivity. Qed.

Lemma group_yz y z :
  y < N.of_nat 256 -> z < N.of_nat 256 -> group_yz_ok y z = true.
Proof. apply (forallb_below2 group_yz_ok 256). vm_compute. reflexivity. Qed.

(** [s2 x y] only depends on the two low bits of [x]. *)
Lemma s2_low x y : s2 x y = s2 (N.land x 3) y.
Proof.
  unfold s2. f_equal. f_equal. rewrite <- N.land_assoc. by rewrite N.land_diag.
Qed.

Lemma land3_cases x : In (N.land x 3) [0; 1; 2; 3].
Proof.
  assert (N.land x 3 < 4) as Hlt.
  { change 3 with (N.ones 2). rewrite N.land_ones. by apply N.mod_lt. }
  assert (N.land x 3 = 0 \/ N.land x 3 = 1 \/ N.land x 3 = 2 \/ N.land x 3 = 3)
    as [->|[->|[->| ->]]] by lia; simpl; tauto.
Qed.

Lemma a2b_encode (n : nat) :
  forall bs, (length bs <= n)%nat ->
    forall out, a2b_loop (b64encode bs) 0 0 0 out = Ret (rev out ++ bs).
Proof.
  induction n as [|n IH]; intros bs Hlen out.
  { destruct bs; [|simpl in Hlen; lia]. simpl. by rewrite app_nil_r. }
  destruct bs as [|x [|y [|z rest]]].
  - simpl. by rewrite app_nil_r.
  - cbn [b64encode]. set (X := Byte.to_N x).
    pose proof (group_xy X X (to_N_lt x) (to_N_lt x)) as Hxy.
    unfold group_xy_ok in Hxy.
    repeat (apply andb_true_iff in Hxy as [Hxy ?]).
    destruct (sextet_char (s1 X)) as [A1 B1]; [by apply N.ltb_lt|].
    destruct (sextet_char (t2 X)) as [A2 B2]; [by apply N.ltb_lt|].
    fold (s1 X) (t2 X).
    rewrite a2b_step0, B1, a2b_step1, B2 by done.
    rewrite (byte_of_N_to_N _ x) by done. reflexivity.
  - cbn [b64encode]. set (X := Byte.to_N x). set (Y := Byte.to_N y).
    pose proof (group_xy X Y (to_N_lt x) (to_N_lt y)) as Hxy.
    unfold group_xy_ok in Hxy.
    repeat (apply andb_true_iff in Hxy as [Hxy ?]).
    destruct (sextet_char (s1 X)) as [A1 B1]; [by apply N.ltb_lt|].
    destruct (sextet_char (s2 X Y)) as [A2 B2]; [by apply N.ltb_lt|].
    destruct (sextet_char (t3 Y)) as [A3 B3]; [by apply N.ltb_lt|].
    fold (s1 X) (s2 X Y) (t3 Y).
    rewrite a2b_step0, B1, a2b_step1, B2, a2b_step2, B3 by done.
    rewrite (byte_of_N_to_N _ y), (byte_of_N_to_N _ x) by done.
    simpl. by rewrite <- app_assoc.
  - cbn [b64encode].
    set (X := Byte.to_N x). set (Y := Byte.to_N y). set (Z := Byte.to_N z).
    pose proof (group_xy X Y (to_N_lt x) (to_N_lt y)) as Hxy.
    pose proof (group_yz Y Z (to_N_lt y) (to_N_lt z)) as Hyz.
    unfold group_xy_ok in Hxy. unfold group_yz_ok in Hyz.
    repeat (apply andb_true_iff in Hxy as [Hxy ?]).
    repeat (apply andb_true_iff in Hyz as [Hyz ?]).
    destruct (sextet_char (s1 X)) as [A1 B1]; [by apply N.ltb_lt|].
    destruct (sextet_char (s2 X Y)) as [A2 B2]; [by apply N.ltb_lt|].
    destruct (sextet_char (s3 Y Z)) as [A3 B3]; [by apply N.ltb_lt|].
    destruct (sextet_char (s4 Z)) as [A4 B4]; [by apply N.ltb_lt|].
    fold (s1 X) (s2 X Y) (s3 Y Z) (s4 Z).
    rewrite a2b_step0, B1, a2b_step1, B2, a2b_step2, B3, a2b_step3, B4
      by done.
    assert ((N.lor (N.shiftl (N.land (s2 X Y) 15) 4) (N.shiftr (s3 Y Z) 2)
             mod 256 =? Y) = true) as Hy.
    { rewrite s2_low.
      match goal with Hall : forallb _ [0; 1; 2; 3] = true |- _ =>
        rewrite forallb_forall in Hall; apply Hall end.
      apply land3_cases. }
    rewrite (byte_of_N_to_N _ z), (byte_of_N_to_N _ y), (byte_of_N_to_N _ x)
      by done.
    rewrite IH by (simpl in Hlen; lia).
    simpl. by rewrite <- !app_assoc.
Qed.

Lemma table_b2a_ascii v : (table_b2a_base64 v <? 128) = true.
Proof.
  apply N.ltb_lt. unfold table_b2a_base64.
  destruct (v <? 26) eqn:E1; [apply N.ltb_lt in E1; lia|].
  destruct (v <? 52) eqn:E2; [apply N.ltb_lt in E2; lia|].
  destruct (v <? 62) eqn:E3; [apply N.ltb_lt in E3; lia|].
  destruct (v =? 62); lia.
Qed.

Lemma b64encode_ascii (n : nat) :
  forall bs, (length bs <= n)%nat ->
    forallb (fun c => c <? 128) (b64encode bs) = true.
Proof.
  induction n as [|n IH]; intros bs Hlen.
  { by destruct bs; [|simpl in Hlen; lia]. }
  destruct bs as [|x [|y [|z rest]]]; cbn [b64encode forallb];
    rewrite ?table_b2a_ascii; try done.
  apply IH. simpl in Hlen. lia.
Qed.

(** Decoding what [b64encode] produced gives the octets back. *)
Lemma b64decode_b64encode (bs : bytes) : b64decode (b64encode bs) = Ret bs.
Proof.
  unfold b64decode, a2b_base64.
  rewrite (b64encode_ascii (length bs)) by done.
  by rewrite (a2b_encode (length bs)).
Qed.

End Base64Facts.

(** ** The fingerprint *)

Module SHA256Facts.
Import SHA256.

Lemma be_bytes_length width x : length (be_bytes width x) = width.
Proof. unfold be_bytes. by rewrite length_map, length_rev, length_seq. Qed.

(** A digest has 32 octets, 256 bits. *)
Lemma digest_length msg : length (digest msg) = 32%nat.
Proof.
  unfold digest. cbn [map concat]. by rewrite !length_app, !be_bytes_length.
Qed.

Lemma hex_pair_lower b : forallb lower_hex (hex_pair b) = true.
Proof.
  unfold hex_pair.
  apply (Base64Facts.forallb_below
           (fun n => forallb lower_hex
                       [hex_digit (N.shiftr n 4); hex_digit (N.land n 15)])
           256); [vm_compute; reflexivity|apply Base64Facts.to_N_lt].
Qed.

Lemma slices2_hex bs : slices2 (hex bs) = map hex_pair bs.
Proof.
  unfold hex. induction bs as [|b bs IH]; [done|].
  cbn [flat_map map]. unfold hex_pair at 1. cbn [app slices2].
  by rewrite IH.
Qed.

Lemma concat_slices2 s : concat (slices2 s) = s.
Proof.
  assert (forall n s, (length s <= n)%nat -> concat (slices2 s) = s) as Hn.
  { induction n as [|n IH]; intros [|a [|b s']] Hl; simpl in *;
      try done; try lia.
    rewrite IH; [done|lia]. }
  by apply (Hn (length s)).
Qed.

End SHA256Facts.

(** C7, as the spec words it, fails: "Y!Q==" is not valid base64 (five
    characters, one of them outside the alphabet), yet no error is raised;
    the stray character is skipped and the fingerprint of the octet "a"
    comes back. *)
Lemma C7_invalid_base64_accepted :
  Base64.valid_base64 (py "Y!Q==") = false
  /\ Base64.b64decode (py "Y!Q==") = Ret [byte_of_N 97]
  /\ compute_fingerprint (py "Y!Q==")
     = Ret (py "ca:97:81:12:ca:1b:bd:ca:fa:c2:31:b3:9a:23:dc:4d:a7:86:ef:f8:14:7c:4e:72:b9:80:77:85:af:ee:48:bb").
Proof. split_and!; vm_compute; reflexivity. Qed.

(** C7, amended. [compute_fingerprint] is a function of its argument
    alone.  It raises exactly when [base64.b64decode] does, with the same
    exception, and never on valid base64 (the decoder also accepts text
    that is not valid base64: it skips characters outside the alphabet
    and stops at the padding).  Otherwise the decoded octets are hashed to
    32 octets (256 bits) by SHA-256 and the result is 32 groups of two
    lowercase hexadecimal digits, the digest in hexadecimal, joined by
    colons.  Two inputs that decode to the same octets have the same
    fingerprint. *)
Theorem C7_fingerprint (s : str) :
  (forall e, compute_fingerprint s = Raise e <-> Base64.b64decode s = Raise e)
  /\ (Base64.valid_base64 s = true -> exists fp, compute_fingerprint s = Ret fp)
  /\ (forall der, Base64.b64decode s = Ret der ->
        length (SHA256.digest der) = 32%nat
        /\ exists groups,
             compute_fingerprint s = Ret (str_join (py ":") groups)
             /\ length groups = 32%nat
             /\ Forall (fun g => length g = 2%nat
                                 /\ forallb lower_hex g = true) groups
             /\ concat groups = SHA256.hexdigest der)
  /\ (forall s' der, Base64.b64decode s = Ret der ->
        Base64.b64decode s' = Ret der ->
        compute_fingerprint s' = compute_fingerprint s).
Proof.
  unfold compute_fingerprint. split_and!.
  - intros e. destruct (Base64.b64decode s); [split; intros; discriminate|].
    split; intros [= ->]; reflexivity.
  - intros Hv. destruct (Base64Facts.valid_base64_b64decode s Hv) as [b ->].
    by eexists.
  - intros der ->. split; [apply SHA256Facts.digest_length|].
    exists (slices2 (SHA256.hexdigest der)). split; [done|].
    unfold SHA256.hexdigest. rewrite SHA256Facts.slices2_hex.
    split; [by rewrite length_map, SHA256Facts.digest_length|]. split.
    + apply Forall_forall. intros g Hg.
      apply list_elem_of_In, in_map_iff in Hg as (b & <- & _).
      split; [done|apply SHA256Facts.hex_pair_lower].
    + rewrite <- SHA256Facts.slices2_hex. apply SHA256Facts.concat_slices2.
  - by intros s' der -> ->.
Qed.

Lemma C7_fingerprint_witness :
  compute_fingerprint (py "YQ==")
  = Ret (py "ca:97:81:12:ca:1b:bd:ca:fa:c2:31:b3:9a:23:dc:4d:a7:86:ef:f8:14:7c:4e:72:b9:80:77:85:af:ee:48:bb")
  /\ compute_fingerprint (py "Y!Q==") = compute_fingerprint (py "YQ==")
  /\ compute_fingerprint (py "abc") = Raise BinasciiError.
Proof.
  destruct (C7_fingerprint (py "YQ==")) as (_ & Hvalid & _ & Hsame).
  destruct (C7_fingerprint (py "abc")) as (Hraise & _).
  split_and!.
  - destruct Hvalid as [fp Hfp]; [reflexivity|].
    rewrite Hfp. vm_compute in Hfp. injection Hfp as <-. reflexivity.
  - apply (Hsame (py "Y!Q==") [byte_of_N 97]); vm_compute; reflexivity.
  - apply Hraise. vm_compute. reflexivity.
Defined.

(** ** The audit log *)

Section AuditLog.
Context `{Platform}.

Lemma dict_set_absent {V} (k : str) (v : V) (d : pydict V) :
  dict_get k d = None -> dict_set k v d = d ++ [(k, v)].
Proof.
  induction d as [|[k' v'] d IH]; simpl; [done|].
  destruct (str_eqb k k'); [done|]. intros Hd. by rewrite IH.
Qed.

Lemma Ret_inj {A} (a b : A) : Ret a = Ret b -> a = b.
Proof. by intros [= ->]. Qed.

Lemma os_urandom_length rq n : length (os_urandom rq n) = n.
Proof. unfold os_urandom. by rewrite length_map, length_seq. Qed.

(** Whatever [decrypt_entries] returns was authenticated: each value is
    the parse of a plaintext the AEAD accepted under the given key, for
    the entry at the same position. *)
Lemma decrypt_entries_authentic entries key :
  forall values, decrypt_entries entries key = Ret values ->
    Forall2 (fun entry v =>
               exists n c plaintext,
                 Base64.b64decode (nonce entry) = Ret n
                 /\ Base64.b64decode (ciphertext entry) = Ret c
                 /\ aesgcm_decrypt key n c None = Some plaintext
                 /\ json_loads plaintext = Ret v)
            entries values.
Proof.
  induction entries as [|entry rest IH]; intros values; cbn [decrypt_entries].
  { intros [= <-]. constructor. }
  destruct (Base64.b64decode (nonce entry)) as [n|] eqn:Hn; [|done].
  destruct (Base64.b64decode (ciphertext entry)) as [c|] eqn:Hc; [|done].
  destruct (aesgcm_decrypt key n c None) as [plaintext|] eqn:Hd; [|done].
  destruct (json_loads plaintext) as [v|] eqn:Hv; [|done].
  destruct (decrypt_entries rest key) as [vs|] eqn:Hrest; [|done].
  intros [= <-]. constructor; [|by apply IH].
  by exists n, c, plaintext.
Qed.

(** C6. Appending the payload [p] adds one entry [{nonce, ciphertext}]:
    the nonce is the 12 octets (96 bits) the operating system's generator
    hands out during this very call, nothing kept from an earlier call or
    taken from the state, so the nonce of any other call is the same text
    exactly when the generator gave that call the same 12 octets; the
    ciphertext is the AEAD encryption, under the log key and that nonce
    and with no associated data, of the JSON text of a copy of [p] with
    [stored_at] set (appended with the time stamp when [p] has no such
    key, as is the case for every payload the relay builds); both are
    stored as base64 and decode back to the octets.  The payload object
    itself is not changed.  Decrypting the entry with the log key gives
    [p] with [stored_at] back, as soon as the AEAD opens what it sealed
    and the JSON parser reads what the printer wrote.  Whenever the AEAD
    rejects an entry (a wrong key, a changed ciphertext),
    [decrypt_entries] raises [InvalidTag], and every value it ever
    returns is the parse of a plaintext the AEAD authenticated. *)
Theorem C6_audit_log_round_trip payload rq w p :
  objects w !! payload = Some p ->
  let nonce_ := map (urandom_octet rq) (seq 0 12) in
  let stamped := entry_payload rq p in
  let plaintext := json_dumps (VDict stamped) in
  let sealed := aesgcm_encrypt LOG_KEY nonce_ plaintext None in
  let entry := LogEntry (Base64.b64encode nonce_) (Base64.b64encode sealed) in
  let r := store_encrypted_log payload rq w in
  (result r = Ret tt /\ emitted r = []
   /\ logs (final_world r) = logs w ++ [entry]
   /\ length nonce_ = 12%nat
   /\ Base64.b64decode (nonce entry) = Ret nonce_
   /\ Base64.b64decode (ciphertext entry) = Ret sealed
   /\ objects (final_world r) !! payload = Some p)
  /\ (forall payload' rq' w' p',
        objects w' !! payload' = Some p' ->
        exists entry',
          logs (final_world (store_encrypted_log payload' rq' w'))
          = logs w' ++ [entry']
          /\ (nonce entry' = nonce entry
              <-> map (urandom_octet rq') (seq 0 12) = nonce_))
  /\ (dict_get (py "stored_at") p = None ->
      stamped = p ++ [(py "stored_at", VStr (time_strftime_gmtime rq))])
  /\ (aesgcm_decrypt LOG_KEY nonce_ sealed None = Some plaintext ->
      json_loads plaintext = Ret (VDict stamped) ->
      decrypt_entries [entry] LOG_KEY = Ret [VDict stamped])
  /\ (forall key sealed' rest,
        aesgcm_decrypt key nonce_ sealed' None = None ->
        decrypt_entries
          (LogEntry (nonce entry) (Base64.b64encode sealed') :: rest) key
        = Raise InvalidTag)
  /\ (forall entries key values,
        decrypt_entries entries key = Ret values ->
        Forall2 (fun entry v =>
                   exists n c plaintext,
                     Base64.b64decode (nonce entry) = Ret n
                     /\ Base64.b64decode (ciphertext entry) = Ret c
                     /\ aesgcm_decrypt key n c None = Some plaintext
                     /\ json_loads plaintext = Ret v)
                entries values).
Proof.
  intros Hp nonce_ stamped plaintext sealed entry r.
  assert (r = (Ret tt,
               World (participants w) (sessions w) (logs w ++ [entry])
                     (objects w ++ [stamped]), [])) as Hr.
  { subst r. by rewrite (store_encrypted_log_run payload rq w p Hp). }
  split_and!.
  - by rewrite Hr.
  - by rewrite Hr.
  - by rewrite Hr.
  - apply os_urandom_length.
  - apply Base64Facts.b64decode_b64encode.
  - apply Base64Facts.b64decode_b64encode.
  - rewrite Hr. cbn [final_world fst snd objects]. by apply lookup_app_l_Some.
  - intros payload' rq' w' p' Hp'. exists (log_entry_for rq' p').
    rewrite (store_encrypted_log_run payload' rq' w' p' Hp').
    split; [done|]. unfold log_entry_for, os_urandom.
    cbn [nonce entry]. split.
    + intros Heq. apply (f_equal Base64.b64decode) in Heq.
      rewrite !Base64Facts.b64decode_b64encode in Heq.
      by apply Ret_inj.
    + intros Heq. by rewrite Heq.
  - intros Hfresh. subst stamped. unfold entry_payload. rewrite Hfresh.
    by apply dict_set_absent.
  - intros Hopen Hparse. cbn [decrypt_entries nonce ciphertext entry].
    rewrite !Base64Facts.b64decode_b64encode. fold nonce_ sealed.
    by rewrite Hopen, Hparse.
  - intros key sealed' rest Hreject. cbn [decrypt_entries nonce ciphertext entry].
    rewrite !Base64Facts.b64decode_b64encode. fold nonce_.
    by rewrite Hreject.
  - apply decrypt_entries_authentic.
Qed.

End AuditLog.

Lemma C6_audit_log_round_trip_witness :
  let p := Scenario.letter "alice" ["alice"; "bob"]%string in
  let w := World [] ∅ [] [p] in
  let stamped := p ++ [(py "stored_at", VStr (py "2024-01-01T00:00:00Z"))] in
  let r := store_encrypted_log (H := Demo.platform) 0 (Scenario.conn "s1") w in
  let other_key := SHA256.digest [x00] in
  map nonce (logs (final_world r)) = [py "AAECAwQFBgcICQoL"]
  /\ decrypt_entries (H := Demo.platform) (logs (final_world r))
       (LOG_KEY (Platform := Demo.platform))
     = Ret [VDict stamped]
  /\ length other_key = 32%nat
  /\ decrypt_entries (H := Demo.platform) (logs (final_world r)) other_key
     = Raise InvalidTag.
Proof.
  intros p w stamped r other_key.
  destruct (C6_audit_log_round_trip (H := Demo.platform) 0
              (Scenario.conn "s1") w p)
    as ((_ & _ & Hlogs & _) & _ & _ & Hround & Hclosed & _); [reflexivity|].
  fold r in Hlogs. rewrite Hlogs. split_and!.
  - vm_compute. reflexivity.
  - apply Hround; vm_compute; reflexivity.
  - apply SHA256Facts.digest_length.
  - apply (Hclosed other_key). vm_compute. reflexivity.
Defined.

(** ** The spec's concrete scenarios *)

(** Scenario 1: after alice registers with the key "YQ==" the snapshot is
    her row alone. *)
Example scenario_1 :
  participant_snapshot (H := Demo.platform)
    (run (H := Demo.platform) initial_world
       [(Scenario.conn "s1", Register (Scenario.registration "alice" "YQ=="))])
  = VList
      [VDict [(py "username", VStr (py "alice"));
              (py "fingerprint",
               VStr (py "ca:97:81:12:ca:1b:bd:ca:fa:c2:31:b3:9a:23:dc:4d:a7:86:ef:f8:14:7c:4e:72:b9:80:77:85:af:ee:48:bb"));
              (py "public_key", VStr (py "YQ=="))]].
Proof. vm_compute. reflexivity. Qed.

(** Scenario 4: once bob has disconnected he is no longer listed, and a
    message with alice's envelope alone is relayed. *)
Example scenario_4 :
  let w := final_world (handle_disconnect (H := Demo.platform)
                          (Scenario.conn "s2") Scenario.alice_and_bob) in
  let data := Scenario.letter "alice" ["alice"]%string in
  dict_keys (participants w) = [py "alice"]
  /\ emitted (handle_send_message (H := Demo.platform) data
                (Scenario.conn "s1") w)
     = [Emission "receive_message" (VDict data) ToAll].
Proof. split; vm_compute; reflexivity. Qed.

(* ===================================================================== *)
(** * Further properties of the code *)
(* ===================================================================== *)

(** ** The snapshot *)

Section Stable.
Context {A : Type} (key : A -> str).

(** [sorted] is stable: the elements with a given key keep the order
    they had. *)
Lemma insert_by_filter (k : str) (x : A) (l : list A) :
  filter (fun y => key y = k) (insert_by key x l)
  = filter (fun y => key y = k) (x :: l).
Proof.
  induction l as [|y l IH]; [done|]. cbn [insert_by].
  destruct (str_ltb (key y) (key x)) eqn:Hyx; [|done].
  rewrite filter_cons, IH, !filter_cons.
  destruct (decide (key y = k)) as [Hy|Hy];
    destruct (decide (key x = k)) as [Hx|Hx]; try done.
  rewrite Hy, <- Hx, str_ltb_irrefl in Hyx. done.
Qed.

Lemma sorted_by_filter (k : str) (l : list A) :
  filter (fun y => key y = k) (sorted_by key l)
  = filter (fun y => key y = k) l.
Proof.
  induction l as [|x l IH]; [done|]. cbn [sorted_by foldr].
  rewrite insert_by_filter, !filter_cons. fold (sorted_by key l).
  by rewrite IH.
Qed.
End Stable.

Section Snapshot.
Context `{Platform}.

(** X1. The snapshot has one row per registered user, each with the
    user's name, fingerprint and key; the rows are in non-decreasing
    order of the lower-cased name, and users whose names only differ in
    case come in the order in which they registered. *)
Theorem snapshot_sorted_complete (w : world) :
  exists items,
    participant_snapshot w =
      VList (map (fun item : str * info =>
                    VDict [(py "username", VStr item.1);
                           (py "fingerprint", VStr (fingerprint item.2));
                           (py "public_key", public_key item.2)]) items)
    /\ items ≡ₚ participants w
    /\ StronglySorted
         (fun a b : str * info =>
            str_ltb (str_lower b.1) (str_lower a.1) = false) items
    /\ (forall k,
          filter (fun item : str * info => str_lower item.1 = k) items
          = filter (fun item : str * info => str_lower item.1 = k)
                   (participants w)).
Proof.
  exists (sorted_by (fun item : str * info => str_lower item.1)
                    (participants w)).
  split_and!.
  - reflexivity.
  - apply sorted_by_perm.
  - apply (sorted_by_sorted (fun item : str * info => str_lower item.1)).
  - intros k.
    apply (sorted_by_filter (fun item : str * info => str_lower item.1)).
Qed.

End Snapshot.

(** ** Leaving twice *)

Section Leaving.
Context `{Platform}.

Lemma removed_unbinds c w : sessions (removed c w) !! c = None.
Proof.
  unfold removed. destruct (sessions w !! c) as [u|] eqn:Hc; [|done].
  destruct (truthy (VStr u)); simpl; apply lookup_delete_eq.
Qed.

(** X2. [remove_participant] is idempotent, on any state: after a
    connection has left (or disconnected), it has no binding, and
    removing it again changes nothing and emits nothing.  The same holds
    for a connection that never registered. *)
Theorem remove_participant_idempotent (c : str) (rq rq' : request) (w : world) :
  let w1 := final_world (remove_participant c rq w) in
  sessions w1 !! c = None
  /\ remove_participant c rq' w1 = (Ret tt, w1, [])
  /\ (sessions w !! c = None -> remove_participant c rq w = (Ret tt, w, [])).
Proof.
  intros w1. subst w1.
  destruct (remove_participant_world c rq w) as [-> _].
  split_and!.
  - apply removed_unbinds.
  - apply remove_participant_unbound, removed_unbinds.
  - apply remove_participant_unbound.
Qed.

End Leaving.

Lemma remove_participant_idempotent_witness :
  remove_participant (H := Demo.platform) (py "s9") (Scenario.conn "s9")
    Scenario.alice_and_bob
  = (Ret tt, Scenario.alice_and_bob, []).
Proof.
  apply (remove_participant_idempotent (H := Demo.platform) (py "s9")
           (Scenario.conn "s9") (Scenario.conn "s9") Scenario.alice_and_bob).
  vm_compute. reflexivity.
Defined.

(** ** The log over a run *)

Section LogOverRuns.
Context `{Platform}.

Lemma removed_logs c w : logs (removed c w) = logs w.
Proof.
  unfold removed. destruct (sessions w !! c) as [u|]; [|done].
  by destruct (truthy (VStr u)).
Qed.

Lemma remove_participant_no_broadcast c rq w :
  broadcast_payloads (emitted (remove_participant c rq w)) = [].
Proof.
  destruct (sessions w !! c) as [u|] eqn:Hc;
    [|by rewrite remove_participant_unbound].
  unfold remove_participant. run_M. rewrite Hc.
  destruct (truthy (VStr u)); [|done].
  cbn [negb participants sessions logs objects].
  destruct (dict_get u (participants w)); reflexivity.
Qed.

Lemma broadcast_payloads_app evs evs' :
  broadcast_payloads (evs ++ evs')
  = broadcast_payloads evs ++ broadcast_payloads evs'.
Proof. unfold broadcast_payloads. by rewrite flat_map_app. Qed.

Lemma handle_leave_chat_run rq w :
  handle_leave_chat rq w = remove_participant (request_sid rq) rq w
  /\ handle_disconnect rq w = remove_participant (request_sid rq) rq w.
Proof.
  unfold handle_leave_chat, handle_disconnect. run_M.
  by destruct (remove_participant (request_sid rq) rq w) as [[o w1] ev1].
Qed.

Lemma request_public_key_no_broadcast data rq w :
  broadcast_payloads (emitted (handle_request_public_key data rq w)) = [].
Proof.
  unfold handle_request_public_key.
  destruct (truthy (data_get "username" data)); [|reflexivity].
  cbn [negb]. destruct (data_get "username" data); reflexivity.
Qed.

(** What one event does to the log. *)
Lemma handle_logs e rq w :
  logs (final_world (handle e rq w))
  = logs w ++ map (log_entry_for rq)
                  (broadcast_payloads (emitted (handle e rq w))).
Proof.
  destruct e as [data|data|data| |]; cbn [handle].
  - destruct (handle_register_cases data rq w)
      as [[e ->]|[[text ->]|(u & k & fp & Hacc)]];
      [by rewrite app_nil_r..|].
    rewrite (handle_register_accepted _ _ _ _ _ _ Hacc).
    cbn [final_world emitted fst snd with_binding logs].
    rewrite broadcast_payloads_app, remove_participant_no_broadcast.
    by rewrite removed_logs, app_nil_r.
  - destruct (handle_send_message_cases data rq w)
      as [[e ->]|[[text ->]|(e & _ & _ & _ & _ & ->)]];
      [by rewrite app_nil_r..|done].
  - rewrite handle_request_public_key_world.
    by rewrite request_public_key_no_broadcast, app_nil_r.
  - rewrite (proj1 (handle_leave_chat_run rq w)).
    rewrite remove_participant_no_broadcast, app_nil_r.
    destruct (remove_participant_world (request_sid rq) rq w) as [-> _].
    apply removed_logs.
  - rewrite (proj2 (handle_leave_chat_run rq w)).
    rewrite remove_participant_no_broadcast, app_nil_r.
    destruct (remove_participant_world (request_sid rq) rq w) as [-> _].
    apply removed_logs.
Qed.

Lemma run_app w trace trace' :
  run w (trace ++ trace') = run (run w trace) trace'.
Proof. unfold run. apply fold_left_app. Qed.

Lemma run_logs trace w :
  logs (run w trace)
  = logs w ++ map (fun m => log_entry_for m.1 m.2) (relays w trace).
Proof.
  revert w. induction trace as [|[rq e] trace IH]; intros w.
  { by rewrite app_nil_r. }
  cbn [run fold_left relays]. fold (run (step w (rq, e)) trace).
  rewrite IH. unfold step at 1. cbn [fst snd].
  rewrite handle_logs, map_app, map_map, <- app_assoc. reflexivity.
Qed.

(** X3. The log is append-only and holds exactly one entry per message
    broadcast, in the order of the broadcasts: after any sequence of
    events the log is the earlier log followed by the entries of the
    [receive_message] events the run emitted, each made from the
    broadcast payload and the request that carried it.  Hence what was
    logged at some point is a prefix of the log at any later point. *)
Theorem log_append_only (trace trace' : list (request * event)) (w : world) :
  logs (run w trace)
  = logs w ++ map (fun m => log_entry_for m.1 m.2) (relays w trace)
  /\ length (logs (run w trace))
     = (length (logs w) + length (relays w trace))%nat
  /\ logs (run w trace) `prefix_of` logs (run w (trace ++ trace')).
Proof.
  split_and!.
  - apply run_logs.
  - by rewrite run_logs, length_app, length_map.
  - rewrite run_app, (run_logs trace' (run w trace)). by eexists.
Qed.

(** X4. What the handlers never touch: relaying a message and looking
    up a key leave the registry as it is (no record, no binding is
    added, removed or changed); registering, leaving and disconnecting
    leave the log as it is. *)
Theorem handlers_frame (data : pydict value) (rq : request) (w : world) :
  (participants (final_world (handle_send_message data rq w)) = participants w
   /\ sessions (final_world (handle_send_message data rq w)) = sessions w)
  /\ final_world (handle_request_public_key data rq w) = w
  /\ logs (final_world (handle_register data rq w)) = logs w
  /\ logs (final_world (handle_leave_chat rq w)) = logs w
  /\ logs (final_world (handle_disconnect rq w)) = logs w.
Proof.
  split_and!.
  - by destruct (handle_send_message_cases data rq w)
      as [[e ->]|[[text ->]|(e & _ & _ & _ & _ & ->)]].
  - by destruct (handle_send_message_cases data rq w)
      as [[e ->]|[[text ->]|(e & _ & _ & _ & _ & ->)]].
  - apply handle_request_public_key_world.
  - pose proof (handle_logs (Register data) rq w) as Hl.
    cbn [handle] in Hl. rewrite Hl.
    destruct (handle_register_cases data rq w)
      as [[e ->]|[[text ->]|(u & k & fp & Hacc)]];
      [by rewrite app_nil_r..|].
    rewrite (handle_register_accepted _ _ _ _ _ _ Hacc). cbn [emitted snd].
    rewrite broadcast_payloads_app, remove_participant_no_broadcast.
    by rewrite app_nil_r.
  - pose proof (handle_logs LeaveChat rq w) as Hl.
    cbn [handle] in Hl. rewrite Hl.
    rewrite (proj1 (handle_leave_chat_run rq w)).
    by rewrite remove_participant_no_broadcast, app_nil_r.
  - pose proof (handle_logs Disconnect rq w) as Hl.
    cbn [handle] in Hl. rewrite Hl.
    rewrite (proj2 (handle_leave_chat_run rq w)).
    by rewrite remove_participant_no_broadcast, app_nil_r.
Qed.

(** The typed [decrypt_entries] on a log made of entries that open and
    parse. *)
Lemma decrypt_entries_log (key : bytes) (l : list (request * pydict value)) :
  LOG_KEY = key ->
  Forall (fun m =>
            let plaintext := json_dumps (VDict (entry_payload m.1 m.2)) in
            let nonce_ := os_urandom m.1 12 in
            aesgcm_decrypt key nonce_
              (aesgcm_encrypt key nonce_ plaintext None) None
            = Some plaintext
            /\ json_loads plaintext = Ret (VDict (entry_payload m.1 m.2))) l ->
  decrypt_entries (map (fun m => log_entry_for m.1 m.2) l) key
  = Ret (map (fun m => VDict (entry_payload m.1 m.2)) l).
Proof.
  intros <-. induction 1 as [|[rq p] l [Hopen Hparse] _ IH]; [done|].
  cbn [map decrypt_entries log_entry_for nonce ciphertext fst snd] in *.
  rewrite !Base64Facts.b64decode_b64encode, Hopen, Hparse, IH. reflexivity.
Qed.

(** X5. Decrypting the whole log of a run with the log key gives back, in
    order, every payload the run broadcast, each with its [stored_at]
    stamp, provided the AEAD opens each of the ciphertexts it made and
    the JSON parser reads back each of the texts the printer wrote. *)
Theorem log_decrypts_to_broadcasts (trace : list (request * event)) :
  let sent := relays initial_world trace in
  Forall (fun m =>
            let plaintext := json_dumps (VDict (entry_payload m.1 m.2)) in
            let nonce_ := os_urandom m.1 12 in
            aesgcm_decrypt LOG_KEY nonce_
              (aesgcm_encrypt LOG_KEY nonce_ plaintext None) None
            = Some plaintext
            /\ json_loads plaintext = Ret (VDict (entry_payload m.1 m.2)))
         sent ->
  decrypt_entries (logs (run initial_world trace)) LOG_KEY
  = Ret (map (fun m => VDict (entry_payload m.1 m.2)) sent).
Proof.
  intros sent Hsent. rewrite run_logs. cbn [initial_world logs app].
  by apply decrypt_entries_log.
Qed.

End LogOverRuns.

Lemma log_decrypts_to_broadcasts_witness :
  let trace :=
    [(Scenario.conn "s1", Register (Scenario.registration "alice" "YQ=="));
     (Scenario.conn "s1",
      SendMessage (Scenario.letter "alice" ["alice"]%string));
     (Scenario.conn "s2", Register (Scenario.registration "bob" "Yg=="));
     (Scenario.conn "s2",
      SendMessage (Scenario.letter "bob" ["alice"; "bob"]%string))] in
  let stamp := [(py "stored_at", VStr (py "2024-01-01T00:00:00Z"))] in
  decrypt_entries (H := Demo.platform)
    (logs (run (H := Demo.platform) initial_world trace))
    (LOG_KEY (Platform := Demo.platform))
  = Ret [VDict (Scenario.letter "alice" ["alice"]%string ++ stamp);
         VDict (Scenario.letter "bob" ["alice"; "bob"]%string ++ stamp)].
Proof.
  intros trace stamp.
  assert (relays (H := Demo.platform) initial_world trace
          = [(Scenario.conn "s1", Scenario.letter "alice" ["alice"]%string);
             (Scenario.conn "s2",
              Scenario.letter "bob" ["alice"; "bob"]%string)]) as Hsent
    by (vm_compute; reflexivity).
  rewrite (log_decrypts_to_broadcasts (H := Demo.platform) trace).
  - rewrite Hsent. vm_compute. reflexivity.
  - rewrite Hsent.
    constructor; [split; vm_compute; reflexivity|].
    constructor; [split; vm_compute; reflexivity|].
    constructor.
Defined.

(** ** What the registry holds *)

Lemma lstrip_head s c rest : lstrip s = c :: rest -> py_isspace c = false.
Proof.
  induction s as [|a s IH]; [done|]. cbn [lstrip].
  destruct (py_isspace a) eqn:Ha; [done|]. by intros [= <- _].
Qed.

Lemma lstrip_suffix s : exists front, s = front ++ lstrip s.
Proof.
  induction s as [|a s [front IH]]; [by exists []|]. cbn [lstrip].
  destruct (py_isspace a); [|by exists []].
  exists (a :: front). simpl. by f_equal.
Qed.

(** [strip] leaves no white space at either end. *)
Lemma strip_trimmed s : trimmed (strip s).
Proof.
  unfold strip. split.
  - intros c rest Hrev.
    destruct (lstrip_suffix (rev (lstrip s))) as [front Hfront].
    apply (f_equal (@rev N)) in Hrev. rewrite rev_involutive in Hrev.
    rewrite Hrev in Hfront. apply (f_equal (@rev N)) in Hfront.
    rewrite rev_involutive, rev_app_distr, rev_involutive in Hfront.
    simpl in Hfront. by apply (lstrip_head s c (rest ++ rev front)).
  - intros c front Hrev.
    apply (f_equal (@rev N)) in Hrev.
    rewrite rev_involutive, rev_app_distr in Hrev. simpl in Hrev.
    by apply (lstrip_head _ _ _ Hrev).
Qed.

Section Records.
Context `{Platform}.

Lemma dict_del_Forall {V} (P : str * V -> Prop) k (d : pydict V) :
  Forall P d -> Forall P (dict_del k d).
Proof.
  induction 1 as [|[k' v] d Hx Hd IH]; [constructor|]. cbn [dict_del].
  destruct (str_eqb k k'); [done|by constructor].
Qed.

Lemma dict_set_Forall {V} (P : str * V -> Prop) k v (d : pydict V) :
  P (k, v) -> Forall P d -> Forall P (dict_set k v d).
Proof.
  intros Hk. induction 1 as [|[k' v'] d Hx Hd IH]; cbn [dict_set].
  { by repeat constructor. }
  destruct (str_eqb k k'); by constructor.
Qed.

Lemma dict_get_elem {V} k (v : V) (d : pydict V) :
  dict_get k d = Some v -> (k, v) ∈ d.
Proof.
  induction d as [|[k' v'] d IH]; [done|]. cbn [dict_get]. unfold str_eqb.
  case_bool_decide as Hk.
  - intros [= <-]. subst. apply elem_of_cons. by left.
  - intros Hd. apply elem_of_cons. right. by apply IH.
Qed.

Lemma removed_participants_sound c w :
  records_sound w -> records_sound (removed c w).
Proof.
  unfold records_sound, removed. intros Hw.
  destruct (sessions w !! c) as [u|]; [|done].
  destruct (truthy (VStr u)); [|done]. by apply dict_del_Forall.
Qed.

Lemma handle_records_sound e rq w :
  records_sound w -> records_sound (final_world (handle e rq w)).
Proof.
  intros Hw. destruct e as [data|data|data| |]; cbn [handle].
  - destruct (handle_register_cases data rq w)
      as [[e ->]|[[text ->]|(u & k & fp & Hacc)]]; [done..|].
    rewrite (handle_register_accepted _ _ _ _ _ _ Hacc).
    destruct Hacc as ([s [_ ->]] & Hlen & _ & Hk & (k' & -> & Hfp) & _).
    cbn [final_world fst snd]. unfold records_sound, with_binding.
    cbn [participants].
    apply dict_set_Forall; [|by apply removed_participants_sound].
    split; [done|]. split; [apply strip_trimmed|].
    exists k'. split; [done|]. split; [|done].
    by intros ->.
  - unfold records_sound.
    by destruct (handle_send_message_cases data rq w)
      as [[e ->]|[[text ->]|(e & _ & _ & _ & _ & ->)]].
  - by rewrite handle_request_public_key_world.
  - rewrite (proj1 (handle_leave_chat_run rq w)).
    destruct (remove_participant_world (request_sid rq) rq w) as [-> _].
    by apply removed_participants_sound.
  - rewrite (proj2 (handle_leave_chat_run rq w)).
    destruct (remove_participant_world (request_sid rq) rq w) as [-> _].
    by apply removed_participants_sound.
Qed.

(** X6. In every state the server reaches from the empty one, every
    record is sound: the username has at least two characters and no
    white space at either end, the key held is a non-empty string, and
    the fingerprint held is the one [compute_fingerprint] gives for that
    key. *)
Theorem registry_records_sound (trace : list (request * event)) (u : str)
    (i : info) :
  dict_get u (participants (run initial_world trace)) = Some i ->
  (2 <= length u)%nat
  /\ (forall c rest, u = c :: rest -> py_isspace c = false)
  /\ (forall c front, u = front ++ [c] -> py_isspace c = false)
  /\ exists k, public_key i = VStr k /\ k <> []
               /\ compute_fingerprint k = Ret (fingerprint i).
Proof.
  intros Hu.
  assert (records_sound (run initial_world trace)) as Hall.
  { assert (forall w, records_sound w -> records_sound (run w trace)) as Hrun.
    { clear Hu. induction trace as [|[rq e] trace IH]; intros w Hw; [done|].
      cbn [run fold_left]. apply IH. by apply handle_records_sound. }
    apply Hrun. constructor. }
  unfold records_sound in Hall. rewrite Forall_forall in Hall.
  destruct (Hall (u, i)) as (Hlen & [Hfirst Hlast] & Hkey);
    [by apply dict_get_elem|].
  done.
Qed.

End Records.

Lemma registry_records_sound_witness :
  exists i,
    dict_get (py "bob") (participants Scenario.alice_and_bob) = Some i
    /\ exists k, public_key i = VStr k
                 /\ compute_fingerprint k = Ret (fingerprint i).
Proof.
  eexists. split; [vm_compute; reflexivity|].
  destruct (registry_records_sound (H := Demo.platform)
              [(Scenario.conn "s1",
                Register (Scenario.registration "alice" "YQ=="));
               (Scenario.conn "s2",
                Register (Scenario.registration "bob" "Yg=="))]
              (py "bob")
              (Info (VStr (py "Yg=="))
                 (py "3e:23:e8:16:00:39:59:4a:33:89:4f:65:64:e1:b1:34:8b:bd:7a:00:88:d4:2c:4a:cb:73:ee:ae:d5:9c:00:9d")
                 (py "s2") 0x41D9000000000000))
    as (_ & _ & _ & k & Hk & _ & Hfp); [vm_compute; reflexivity|].
  exists k. split; [exact Hk|exact Hfp].
Defined.

(** ** Registering: rotation of the key, rejections *)

Section Registering.
Context `{Platform}.

(** X7. A registered user can replace its key: when the calling
    connection registers again under the name [u] it already holds, with
    a non-empty key that decodes, the request is never refused as a
    conflict; the record of [u] then holds the new key and its
    fingerprint, the connection is still bound to [u], and the set of
    registered usernames is the same as before.  The other clients see
    [user_left] and then [user_joined] for [u], each followed by a
    snapshot. *)
Theorem reregister_replaces_key data rq w s k fp :
  registry_inv w ->
  py_or (data_get "username" data) (VStr []) = VStr s ->
  sessions w !! request_sid rq = Some (strip s) ->
  data_get "public_key" data = VStr k -> k <> [] ->
  compute_fingerprint k = Ret fp ->
  let c := request_sid rq in
  let u := strip s in
  exists old w',
    dict_get u (participants w) = Some old
    /\ handle_register data rq w =
         (Ret tt, w',
          [user_event "user_left" u (fingerprint old) c;
           snapshot_event (removed c w);
           register_success_event u fp c w';
           user_event "user_joined" u fp c;
           snapshot_event w'])
    /\ dict_get u (participants w')
       = Some (Info (VStr k) fp c (time_time rq))
    /\ sessions w' !! c = Some u
    /\ (forall u', u' ∈ dict_keys (participants w')
                   <-> u' ∈ dict_keys (participants w)).
Proof.
  intros Hinv Hs Hc Hk Hne Hfp c u.
  pose proof Hinv as (Hnd & Hlen & Hbij).
  destruct (proj1 (Hbij c u) Hc) as (old & Hold & Hsid).
  assert (register_accepts data rq w u (VStr k) fp) as Hacc.
  { split; [by exists s|]. split; [by apply Hlen, (dict_get_Some_elem_of _ old)|].
    split; [done|]. split; [by apply truthy_VStr|].
    split; [by exists k|]. intros j Hj. rewrite Hold in Hj.
    injection Hj as <-. exact Hsid. }
  exists old. eexists. split; [done|]. split_and!.
  - rewrite (handle_register_accepted _ _ _ _ _ _ Hacc). fold c.
    rewrite (remove_participant_bound c rq w u old Hc
               (registry_inv_truthy w c u Hinv Hc) Hold).
    cbn [emitted snd app]. rewrite <- (removed_bound w c u) by done.
    reflexivity.
  - cbn [with_binding participants]. rewrite dict_get_set.
    by rewrite decide_True.
  - cbn [with_binding sessions]. apply lookup_insert_eq.
  - intros u'. cbn [with_binding participants].
    rewrite <- !dict_get_is_Some, dict_get_set.
    rewrite (removed_bound w c u) by done. cbn [without_participant participants
      without_session].
    destruct (decide (u' = u)) as [->|Hne'].
    + rewrite Hold. split; by eexists.
    + by rewrite dict_get_del_ne.
Qed.

(** X8. The checks of [handle_register] and their order.  With a
    username [s] that is a string: if [s] is empty or all white space, or
    no key is given, the request is refused as incomplete; otherwise if
    only one character is left after trimming it is refused as too
    short; otherwise if the trimmed name is held by another connection
    it is refused as in use, whether or not the key decodes.  Each
    refusal is a [register_error] to the caller and nothing else. *)
Theorem register_rejections data rq w s :
  py_or (data_get "username" data) (VStr []) = VStr s ->
  let u := strip s in
  let refused (text : string) :=
    (Ret tt, w, [Emission "register_error" (message text)
                          (ToSid (request_sid rq))]) in
  (forallb py_isspace s = true -> u = [])
  /\ (u = [] \/ truthy (data_get "public_key" data) = false ->
      handle_register data rq w
      = refused "Username and public key are required."%string)
  /\ (length u = 1%nat -> truthy (data_get "public_key" data) = true ->
      handle_register data rq w
      = refused "Username must be at least 2 characters."%string)
  /\ (forall i, (2 <= length u)%nat ->
        truthy (data_get "public_key" data) = true ->
        dict_get u (participants w) = Some i -> sid i <> request_sid rq ->
        handle_register data rq w
        = refused "That username is already in use."%string).
Proof.
  intros Hs u refused. subst refused. split_and!.
  - intros Hall. subst u. unfold strip.
    assert (forall t, forallb py_isspace t = true -> lstrip t = []) as Hl.
    { induction t as [|a t IH]; [done|]. cbn [forallb lstrip].
      intros [-> Ht]%andb_true_iff. by apply IH. }
    by rewrite (Hl s Hall).
  - intros Hmissing. unfold handle_register. rewrite Hs. run_M. fold u.
    assert (negb (truthy (VStr u))
            || negb (truthy (data_get "public_key" data)) = true) as ->;
      [|done].
    destruct Hmissing as [-> | ->]; [done|]. apply orb_true_r.
  - intros Hlen Hk. unfold handle_register. rewrite Hs. run_M. fold u.
    rewrite Hk, Hlen. by destruct u.
  - intros i Hlen Hk Hi Hsid. unfold handle_register. rewrite Hs. run_M.
    fold u. rewrite Hk.
    assert (truthy (VStr u) = true) as ->
      by (destruct u; [simpl in Hlen; lia|done]).
    assert ((length u <? 2)%nat = false) as -> by (apply Nat.ltb_ge; lia).
    cbn [negb orb]. rewrite Hi. unfold str_eqb.
    rewrite bool_decide_eq_false_2 by done. done.
Qed.

End Registering.

Lemma reregister_replaces_key_witness :
  let data := Scenario.registration " bob " "Yw==" in
  let rq := Scenario.conn "s2" in
  let fp := py "2e:7d:2c:03:a9:50:7a:e2:65:ec:f5:b5:35:68:85:a5:33:93:a2:02:9d:24:13:94:99:72:65:a1:a2:5a:ef:c6" in
  exists w',
    dict_get (strip (py " bob ")) (participants w')
    = Some (Info (VStr (py "Yw==")) fp (request_sid rq) (time_time rq))
    /\ sessions w' !! request_sid rq = Some (strip (py " bob ")).
Proof.
  intros data rq fp.
  destruct (reregister_replaces_key (H := Demo.platform) data rq
              Scenario.alice_and_bob (py " bob ") (py "Yw==") fp)
    as (old & w' & _ & _ & Hrec & Hses & _).
  - exact alice_and_bob_inv.
  - reflexivity.
  - vm_compute. reflexivity.
  - reflexivity.
  - discriminate.
  - vm_compute. reflexivity.
  - exists w'. split; [exact Hrec|exact Hses].
Defined.

Lemma register_rejections_witness :
  handle_register (H := Demo.platform) (Scenario.registration "bob" "!")
    (Scenario.conn "s1") Scenario.alice_and_bob
  = (Ret tt, Scenario.alice_and_bob,
     [Emission "register_error" (message "That username is already in use.")
               (ToSid (py "s1"))]).
Proof.
  destruct (register_rejections (H := Demo.platform)
              (Scenario.registration "bob" "!") (Scenario.conn "s1")
              Scenario.alice_and_bob (py "bob") eq_refl)
    as (_ & _ & _ & Hused).
  eapply Hused.
  - vm_compute. lia.
  - reflexivity.
  - vm_compute. reflexivity.
  - vm_compute. discriminate.
Defined.

(** ** Keys with line breaks *)

Lemma a2b_loop_filter (s : list N) :
  forall q l p out,
    Base64.a2b_loop (List.filter base64_char s) q l p out
    = Base64.a2b_loop s q l p out.
Proof.
  induction s as [|c s IH]; intros q l p out; [done|].
  cbn [List.filter]. unfold base64_char at 1.
  destruct (Base64.is_alphabet c) eqn:Ha; cbn [orb].
  - cbn [Base64.a2b_loop]. by rewrite !IH.
  - destruct (c =? Base64.BASE64_PAD) eqn:Hp.
    + cbn [Base64.a2b_loop]. by rewrite !IH.
    + cbn [Base64.a2b_loop]. rewrite Hp, IH.
      unfold Base64.is_alphabet in Ha. apply N.ltb_ge in Ha.
      by rewrite (proj2 (N.leb_le _ _) Ha).
Qed.

Lemma filter_ascii (s : list N) :
  forallb (fun c => c <? 128) (List.filter base64_char s) = true.
Proof.
  induction s as [|c s IH]; [done|]. cbn [List.filter].
  destruct (base64_char c) eqn:Hc; [|done]. cbn [forallb]. rewrite IH.
  unfold base64_char in Hc. apply orb_true_iff in Hc as [Hc|Hc].
  - by destruct (Base64Facts.is_alphabet_spec c Hc) as (_ & _ & ->).
  - apply N.eqb_eq in Hc as ->. done.
Qed.

(** X9. Of the submitted key only the base64 characters count: for a key
    in ASCII, removing every character that is neither in the base64
    alphabet nor the pad character (line breaks, spaces, PEM dashes)
    changes neither the decoded octets nor the fingerprint, nor whether
    the key is refused. *)
Theorem fingerprint_skips_foreign_characters (s : str) :
  forallb (fun c => c <? 128) s = true ->
  Base64.b64decode (List.filter base64_char s) = Base64.b64decode s
  /\ compute_fingerprint (List.filter base64_char s) = compute_fingerprint s.
Proof.
  intros Hascii.
  assert (Base64.b64decode (List.filter base64_char s) = Base64.b64decode s)
    as Hdec.
  { unfold Base64.b64decode, Base64.a2b_base64.
    by rewrite Hascii, filter_ascii, a2b_loop_filter. }
  split; [done|]. unfold compute_fingerprint. by rewrite Hdec.
Qed.

Lemma fingerprint_skips_foreign_characters_witness :
  compute_fingerprint (py "YQ==") = compute_fingerprint [89; 10; 32; 81; 61; 13; 10; 61].
Proof.
  destruct (fingerprint_skips_foreign_characters [89; 10; 32; 81; 61; 13; 10; 61])
    as [_ Hfp]; [reflexivity|].
  rewrite <- Hfp. reflexivity.
Defined.

(** ** The log key: the server and the tool *)

Lemma b64encode_nonempty (k : bytes) : k <> [] -> Base64.b64encode k <> [].
Proof. by destruct k as [|x [|y [|z k]]]. Qed.

Module DecryptLogsFacts.
Import DecryptLogs.

Lemma load_key_decoded (s : str) (k : bytes) :
  s <> [] -> Base64.b64decode s = Ret k ->
  load_key (Some s)
  = if bool_decide (length k = 32%nat) then Done k
    else Failed (RuntimeError
                   "SERVER_LOG_KEY_B64 must decode to 32 bytes (256 bits)").
Proof.
  intros Hs Hk. unfold load_key. cbn [truthy_opt default]. unfold id.
  rewrite (truthy_VStr s Hs), Hk. cbn. by case_bool_decide.
Qed.

Lemma load_key_Done (s : str) (k : bytes) :
  load_key (Some s) = Done k
  <-> s <> [] /\ Base64.b64decode s = Ret k /\ length k = 32%nat.
Proof.
  split.
  - intros Hk. destruct s as [|c s]; [done|].
    destruct (Base64.b64decode (c :: s)) as [k'|e] eqn:Hdec.
    + pose proof (load_key_decoded (c :: s) k' ltac:(done) Hdec) as Hl.
      rewrite Hk in Hl. case_bool_decide; [|done]. by injection Hl as ->.
    + unfold load_key in Hk. cbn [truthy_opt default] in Hk. unfold id in Hk.
      rewrite (truthy_VStr (c :: s)), Hdec in Hk by done. done.
  - intros (Hs & Hdec & Hlen). rewrite (load_key_decoded s k) by done.
    by rewrite bool_decide_eq_true_2.
Qed.

(** X10. [load_key] returns a key exactly when the variable is set to a
    non-empty text that decodes to 32 octets, and then it returns those
    octets; the base64 text of any 32 octets is read back as these
    octets, the text of any other non-empty octet string is refused with
    the length error, and an unset or empty variable with the "required"
    error. *)
Theorem load_key_spec :
  (forall (s : str) k, load_key (Some s) = Done k <->
     s <> [] /\ Base64.b64decode s = Ret k /\ length k = 32%nat)
  /\ (forall k, length k = 32%nat ->
        load_key (Some (Base64.b64encode k)) = Done k)
  /\ (forall k, k <> [] -> length k <> 32%nat ->
        load_key (Some (Base64.b64encode k))
        = Failed (RuntimeError
                    "SERVER_LOG_KEY_B64 must decode to 32 bytes (256 bits)"))
  /\ load_key None
     = Failed (RuntimeError
                 "SERVER_LOG_KEY_B64 environment variable is required")
  /\ load_key (Some [])
     = Failed (RuntimeError
                 "SERVER_LOG_KEY_B64 environment variable is required").
Proof.
  split_and!; try done.
  - apply load_key_Done.
  - intros k Hlen.
    rewrite (load_key_decoded _ k); [by rewrite bool_decide_eq_true_2| |].
    + apply b64encode_nonempty. by destruct k.
    + apply Base64Facts.b64decode_b64encode.
  - intros k Hk Hlen.
    rewrite (load_key_decoded _ k); [by rewrite bool_decide_eq_false_2| |].
    + by apply b64encode_nonempty.
    + apply Base64Facts.b64decode_b64encode.
Qed.

(** X11. The tool and the server agree on the key whenever the tool
    accepts it: if [load_key] returns a key for the value of
    SERVER_LOG_KEY_B64, the server's cipher is made from the same key.
    The converse fails: the server also starts with a key of 16 or 24
    octets, which the tool refuses, and with the variable unset, where it
    draws 32 octets at random and the tool has nothing to load. *)
Theorem tool_and_server_keys (urandom : nat -> byte) :
  (forall env k, load_key env = Done k -> log_cipher env urandom = Ret k)
  /\ (forall k, length k = 16%nat \/ length k = 24%nat ->
        log_cipher (Some (Base64.b64encode k)) urandom = Ret k
        /\ load_key (Some (Base64.b64encode k))
           = Failed (RuntimeError
                       "SERVER_LOG_KEY_B64 must decode to 32 bytes (256 bits)"))
  /\ (exists k, log_cipher None urandom = Ret k /\ length k = 32%nat
                /\ load_key None
                   = Failed (RuntimeError
                       "SERVER_LOG_KEY_B64 environment variable is required")).
Proof.
  split_and!.
  - intros [s|] k Hk; [|done].
    apply load_key_Done in Hk as (Hs & Hdec & Hlen).
    unfold log_cipher. cbn [truthy_opt default]. unfold id.
    rewrite (truthy_VStr s Hs), Hdec. unfold AESGCM. rewrite Hlen. done.
  - intros k Hlen.
    assert (k <> []) as Hne by (intros ->; simpl in Hlen; lia).
    pose proof (Base64Facts.b64decode_b64encode k) as Hdec.
    split.
    + unfold log_cipher. cbn [truthy_opt default]. unfold id.
      rewrite (truthy_VStr _ (b64encode_nonempty k Hne)), Hdec.
      unfold AESGCM. by destruct Hlen as [-> | ->].
    + rewrite (load_key_decoded _ k (b64encode_nonempty k Hne) Hdec).
      rewrite bool_decide_eq_false_2; [done|lia].
  - eexists. split; [|split; [|reflexivity]].
    + unfold log_cipher. cbn [truthy_opt]. unfold AESGCM.
      rewrite length_map, length_seq. reflexivity.
    + by rewrite length_map, length_seq.
Qed.

End DecryptLogsFacts.

(** ** From the export of the log to the tool's output *)

Section LogExport.
Context `{Platform}.

(** On entries as the server exports them the tool's loop is the typed
    [decrypt_entries]. *)
Lemma decrypt_entries_export (l : list log_entry) (k : bytes) :
  DecryptLogs.decrypt_entries (map entry_value l) k
  = DecryptLogs.python (decrypt_entries l k).
Proof.
  induction l as [|e l IH]; [done|].
  cbn [map DecryptLogs.decrypt_entries decrypt_entries].
  change (DecryptLogs.subscript (entry_value e) "nonce")
    with (DecryptLogs.Done (VStr (nonce e))).
  change (DecryptLogs.subscript (entry_value e) "ciphertext")
    with (DecryptLogs.Done (VStr (ciphertext e))).
  cbn [mbind DecryptLogs.tool_mbind DecryptLogs.b64decode_value].
  destruct (Base64.b64decode (nonce e)) as [n|x]; [|done].
  destruct (Base64.b64decode (ciphertext e)) as [c|x]; [|done].
  cbn [DecryptLogs.python mbind DecryptLogs.tool_mbind].
  destruct (aesgcm_decrypt k n c None) as [plaintext|]; [|done].
  destruct (json_loads plaintext) as [v|x]; [|done].
  cbn [DecryptLogs.python]. rewrite IH.
  by destruct (decrypt_entries l k).
Qed.

(** X12. The export of the log and the tool fit together.  Take the log
    of any run of the server, the body GET /logs answers with, saved to
    the file named on the tool's command line, and the tool's
    SERVER_LOG_KEY_B64 decoding to the server's log key.  When the
    request was authorised (no export token configured, or an empty one,
    or the header equal to it) the tool prints, in order, every payload
    the run broadcast with its [stored_at] stamp, provided the AEAD opens
    what it sealed and the JSON parser reads what the printer wrote.
    When the request was refused the saved body is the error object, and
    the tool prints the empty list without any error. *)
Theorem export_then_decrypt (trace : list (request * event))
    (token header env : option str) (argv : list str)
    (load : str -> DecryptLogs.tool_outcome value) :
  let w := run initial_world trace in
  let sent := relays initial_world trace in
  let answer := get_logs token header w in
  length argv = 2%nat ->
  load (default [] (argv !! 1%nat)) = DecryptLogs.Done (body answer) ->
  DecryptLogs.load_key env = DecryptLogs.Done LOG_KEY ->
  Forall (fun m =>
            let plaintext := json_dumps (VDict (entry_payload m.1 m.2)) in
            let nonce_ := os_urandom m.1 12 in
            aesgcm_decrypt LOG_KEY nonce_
              (aesgcm_encrypt LOG_KEY nonce_ plaintext None) None
            = Some plaintext
            /\ json_loads plaintext = Ret (VDict (entry_payload m.1 m.2)))
         sent ->
  (truthy_opt token = false \/ header = token ->
   status_code answer = 200
   /\ DecryptLogs.main argv load env
      = DecryptLogs.Done (map (fun m => VDict (entry_payload m.1 m.2)) sent))
  /\ (truthy_opt token = true -> header <> token ->
      status_code answer = 401
      /\ DecryptLogs.main argv load env = DecryptLogs.Done []).
Proof.
  intros w sent answer Hargv Hload Hkey Hsent.
  assert (length LOG_KEY = 32%nat) as Hlen.
  { destruct env as [s|]; [|done].
    by apply DecryptLogsFacts.load_key_Done in Hkey as (_ & _ & ?). }
  assert (forall entries,
            DecryptLogs.get_entries (body answer) = DecryptLogs.Done entries ->
            DecryptLogs.main argv load env
            = entries ← DecryptLogs.iterate entries;
              DecryptLogs.decrypt_entries entries LOG_KEY) as Hmain.
  { intros entries Hentries. unfold DecryptLogs.main.
    rewrite Hargv, bool_decide_eq_true_2 by done. cbn [negb].
    rewrite Hload. cbn [mbind DecryptLogs.tool_mbind].
    rewrite Hentries, Hkey. cbn [mbind DecryptLogs.tool_mbind].
    unfold AESGCM. rewrite Hlen. reflexivity. }
  split.
  - intros Hopen.
    assert (answer = Response 200
              (VDict [(py "entries", VList (map entry_value (logs w)))]))
      as Hanswer.
    { unfold answer, get_logs, collect_encrypted_logs.
      destruct Hopen as [-> | ->]; [done|].
      rewrite bool_decide_eq_true_2 by done. by rewrite andb_false_r. }
    split; [by rewrite Hanswer|].
    rewrite (Hmain (VList (map entry_value (logs w))))
      by (by rewrite Hanswer).
    cbn [DecryptLogs.iterate mbind DecryptLogs.tool_mbind].
    rewrite decrypt_entries_export. unfold w.
    rewrite run_logs. cbn [initial_world logs app].
    by rewrite (decrypt_entries_log LOG_KEY).
  - intros Htoken Hheader.
    assert (answer = Response 401
              (VDict [(py "error", VStr (py "unauthorized"))])) as Hanswer.
    { unfold answer, get_logs. rewrite Htoken.
      by rewrite bool_decide_eq_false_2. }
    split; [by rewrite Hanswer|].
    rewrite (Hmain (VList [])) by (by rewrite Hanswer).
    reflexivity.
Qed.

End LogExport.

Lemma export_then_decrypt_witness :
  let trace :=
    [(Scenario.conn "s1", Register (Scenario.registration "alice" "YQ=="));
     (Scenario.conn "s1",
      SendMessage (Scenario.letter "alice" ["alice"]%string))] in
  let stamp := [(py "stored_at", VStr (py "2024-01-01T00:00:00Z"))] in
  let w := run (H := Demo.platform) initial_world trace in
  let env := Some (Base64.b64encode (SHA256.digest [])) in
  DecryptLogs.main (H := Demo.platform) [py "decrypt_logs.py"; py "logs.json"]
    (fun _ => DecryptLogs.Done (body (get_logs None None w))) env
  = DecryptLogs.Done [VDict (Scenario.letter "alice" ["alice"]%string ++ stamp)].
Proof.
  intros trace stamp w env.
  assert (relays (H := Demo.platform) initial_world trace
          = [(Scenario.conn "s1", Scenario.letter "alice" ["alice"]%string)])
    as Hsent by (vm_compute; reflexivity).
  destruct (export_then_decrypt (H := Demo.platform) trace None None env
              [py "decrypt_logs.py"; py "logs.json"]
              (fun _ => DecryptLogs.Done (body (get_logs None None w))))
    as [Hopen _].
  - reflexivity.
  - reflexivity.
  - vm_compute. reflexivity.
  - rewrite Hsent. constructor; [split; vm_compute; reflexivity|]. constructor.
  - destruct Hopen as [_ Hmain]; [by left|].
    rewrite Hmain, Hsent. vm_compute. reflexivity.
Defined.

(** ** Exceptions and nonces *)

Section Failing.
Context `{Platform}.

(** X13. A handler that raises has done nothing: whatever the event, if
    the handler ends with an exception then the registry, the session
    table and the log are as before and no event was emitted, to the
    caller or to anyone else. *)
Theorem failed_handler_changes_nothing (e : event) (rq : request) (w : world)
    (x : exn) :
  result (handle e rq w) = Raise x -> handle e rq w = (Raise x, w, []).
Proof.
  destruct e as [data|data|data| |]; cbn [handle].
  - destruct (handle_register_cases data rq w)
      as [[x' ->]|[[text ->]|(u & k & fp & Hacc)]].
    + by intros [= ->].
    + done.
    + by rewrite (handle_register_accepted _ _ _ _ _ _ Hacc).
  - destruct (handle_send_message_cases data rq w)
      as [[x' ->]|[[text ->]|(e & _ & _ & _ & _ & ->)]].
    + by intros [= ->].
    + done.
    + done.
  - unfold handle_request_public_key.
    destruct (truthy (data_get "username" data)); [|done].
    cbn [negb]. destruct (data_get "username" data); try done.
    + by intros [= <-].
    + by intros [= <-].
  - rewrite (proj1 (handle_leave_chat_run rq w)).
    by rewrite (proj2 (remove_participant_world _ rq w)).
  - rewrite (proj2 (handle_leave_chat_run rq w)).
    by rewrite (proj2 (remove_participant_world _ rq w)).
Qed.

Lemma b64encode_inj (a b : bytes) :
  Base64.b64encode a = Base64.b64encode b -> a = b.
Proof.
  intros Heq. apply (f_equal Base64.b64decode) in Heq.
  rewrite !Base64Facts.b64decode_b64encode in Heq. by injection Heq.
Qed.

(** X14. No nonce is used twice under the log key as long as the
    generator does not repeat itself, and only then: the nonces in the
    log of a run are pairwise different exactly when the 12-octet
    strings the generator handed to the relayed messages are pairwise
    different.  The code keeps no counter and makes no check of its
    own. *)
Theorem log_nonces_distinct (trace : list (request * event)) :
  NoDup (map nonce (logs (run initial_world trace)))
  <-> NoDup (map (fun m => map (urandom_octet m.1) (seq 0 12))
                 (relays initial_world trace)).
Proof.
  rewrite run_logs. cbn [initial_world logs app].
  assert (forall sent : list (request * pydict value),
            map nonce (map (fun m => log_entry_for m.1 m.2) sent)
            = Base64.b64encode
                <$> map (fun m => map (urandom_octet m.1) (seq 0 12)) sent)
    as ->.
  { induction sent as [|m sent IH]; [done|]. cbn [map fmap list_fmap].
    by rewrite IH. }
  split.
  - apply (NoDup_fmap_1 Base64.b64encode).
  - apply (@NoDup_fmap_2 _ _ Base64.b64encode b64encode_inj).
Qed.

End Failing.

Lemma failed_handler_changes_nothing_witness :
  handle (H := Demo.platform)
    (Register (Scenario.registration "alice" "abc")) (Scenario.conn "s1")
    Scenario.alice_and_bob
  = (Raise BinasciiError, Scenario.alice_and_bob, []).
Proof.
  apply (failed_handler_changes_nothing (H := Demo.platform)).
  vm_compute. reflexivity.
Defined.
